(** * semgrep/rule.py: the rule compiler

    A shallow embedding of [semgrep/rule.py]: the class [Rule], which turns a
    parsed rule document into a boolean expression tree and a pair of glob
    sets, and exposes the document's metadata.

    Python values are the documents a YAML or JSON loader hands over:
    [None], booleans, integers, strings, lists and dicts with string keys
    (floats are left out).  A string is a sequence of characters with code
    points below 256.  A dict is an association list in insertion order, so
    that [items()] iterates it in document order; [dict_get] finds the first
    binding of a key.

    Exceptions are values of [exn]; fallible code lives in the error monad
    [result]. *)

From Stdlib Require Import List String Ascii ZArith Bool Lia Arith DecimalString.
From Stdlib Require Import DecimalFacts DecimalNat Finite.
Import ListNotations.
Local Open Scope string_scope.
Set Warnings "-register-all".

(** ** Python values *)

Inductive value : Type :=
| VNone
| VBool (b : bool)
| VInt (z : Z)
| VStr (s : string)
| VList (l : list value)
| VDict (d : list (string * value)).

Definition dict : Type := list (string * value).

(** The induction principle that reaches inside lists and dicts. *)
Section value_induction.
Variable P : value -> Prop.
Hypothesis HNone : P VNone.
Hypothesis HBool : forall b, P (VBool b).
Hypothesis HInt : forall z, P (VInt z).
Hypothesis HStr : forall s, P (VStr s).
Hypothesis HList : forall l, Forall P l -> P (VList l).
Hypothesis HDict : forall d, Forall (fun kv => P (snd kv)) d -> P (VDict d).

Fixpoint value_nested_ind (v : value) : P v :=
  match v with
  | VNone => HNone
  | VBool b => HBool b
  | VInt z => HInt z
  | VStr s => HStr s
  | VList l =>
      HList l ((fix go (l : list value) : Forall P l :=
                  match l with
                  | [] => Forall_nil _
                  | x :: r => Forall_cons _ (value_nested_ind x) (go r)
                  end) l)
  | VDict d =>
      HDict d ((fix go (d : dict) : Forall (fun kv => P (snd kv)) d :=
                  match d with
                  | [] => Forall_nil _
                  | kv :: r => Forall_cons _ (value_nested_ind (snd kv)) (go r)
                  end) d)
  end.
End value_induction.

(** ** Exceptions and the error monad *)

(** Modelled from the spec: [Span] and [DUMMY_SPAN] live in
    [semgrep.rule_lang], which is not part of the sources.  A span is the
    location range of a mapping in the original document; how it is read off
    the mapping is not known here, so the call [Span.from_dict(d,
    before_context=n)] is kept uninterpreted, and [s or DUMMY_SPAN] is kept
    as [Span_or s DUMMY_SPAN]. *)
Inductive Span : Type :=
| Span_from_dict (d : dict) (before_context : option nat)
| DUMMY_SPAN
| Span_or (s fallback : Span).

(** Modelled from the spec: [RuleLangError] lives in [semgrep.rule_lang].  A
    schema error carries a short message, a long message, a severity level,
    an optional remediation hint and one or more source spans. *)
Record RuleLangError : Type := mkRuleLangError {
  short_msg : string;
  long_msg : string;
  level : string;
  help : option string;
  spans : list Span
}.

(** The argument an [InvalidRuleSchema] is raised with: the rendering
    [err.emit()] of a [RuleLangError] (the rendering itself is not part of
    the sources, the error it renders is kept), a formatted text, or a text
    that ends with a formatted collection of names from
    [semgrep.semgrep_types]. *)
Inductive schema_arg : Type :=
| Emit (err : RuleLangError)
| Text (msg : string)
| TextNames (msg : string) (names : list string).

Inductive exn : Type :=
| InvalidRuleSchema (arg : schema_arg)
| KeyError (key : string)
| TypeError (msg : string).

Inductive result (A : Type) : Type :=
| Ok (a : A)
| Raise (e : exn).
Arguments Ok {A} a.
Arguments Raise {A} e.

Definition bind {A B : Type} (m : result A) (k : A -> result B) : result B :=
  match m with
  | Ok a => k a
  | Raise e => Raise e
  end.

Notation "x <- m ;; k" := (bind m (fun x => k))
  (at level 61, m at next level, right associativity).
Notation "' pat <- m ;; k" := (bind m (fun x => match x with pat => k end))
  (at level 61, pat pattern, m at next level, right associativity).

(** ** The Python built-ins the module uses *)

(** [d.get(k)] as an option, first binding wins. *)
Fixpoint dict_get (d : dict) (k : string) : option value :=
  match d with
  | [] => None
  | (k', v) :: r => if String.eqb k' k then Some v else dict_get r k
  end.

(** [d.get(k, default)]. *)
Definition py_get (d : dict) (k : string) (default : value) : value :=
  match dict_get d k with
  | Some v => v
  | None => default
  end.

(** [d[k]]. *)
Definition py_getitem (d : dict) (k : string) : result value :=
  match dict_get d k with
  | Some v => Ok v
  | None => Raise (KeyError k)
  end.

(** [k in d]. *)
Definition dict_mem (d : dict) (k : string) : bool :=
  match dict_get d k with Some _ => true | None => false end.

(** [s.startswith(p)]. *)
Definition startswith (s p : string) : bool := String.prefix p s.

(** Truth value of an object in a condition. *)
Definition truthy (v : value) : bool :=
  match v with
  | VNone => false
  | VBool b => b
  | VInt z => negb (Z.eqb z 0)
  | VStr s => negb (String.eqb s "")
  | VList l => match l with [] => false | _ => true end
  | VDict d => match d with [] => false | _ => true end
  end.

(** [type(v).__name__]. *)
Definition type_name (v : value) : string :=
  match v with
  | VNone => "NoneType"
  | VBool _ => "bool"
  | VInt _ => "int"
  | VStr _ => "str"
  | VList _ => "list"
  | VDict _ => "dict"
  end.

(** [str(type(v))]. *)
Definition type_str (v : value) : string :=
  "<class '" ++ type_name v ++ "'>".

Definition str_of_nat (n : nat) : string :=
  NilZero.string_of_uint (Nat.to_uint n).

Definition str_of_Z (z : Z) : string :=
  NilZero.string_of_int (Z.to_int z).

(** *** [repr] and [str] *)

Definition hex_digit (n : nat) : ascii :=
  match n with
  | 0 => "0" | 1 => "1" | 2 => "2" | 3 => "3" | 4 => "4" | 5 => "5"
  | 6 => "6" | 7 => "7" | 8 => "8" | 9 => "9" | 10 => "a" | 11 => "b"
  | 12 => "c" | 13 => "d" | 14 => "e" | _ => "f"
  end%char.

Definition backslash : ascii := ascii_of_nat 92.
Definition squote : ascii := ascii_of_nat 39.
Definition dquote : ascii := ascii_of_nat 34.

Fixpoint str_mem (c : ascii) (s : string) : bool :=
  match s with
  | EmptyString => false
  | String c' r => Ascii.eqb c c' || str_mem c r
  end.

(** Whether a character below 256 is printed as itself by [repr]. *)
Definition isprintable (n : nat) : bool :=
  (((32 <=? n) && (n <=? 126)) || ((161 <=? n) && negb (n =? 173)))%nat.

Definition repr_char (quote c : ascii) : string :=
  let n := nat_of_ascii c in
  if Ascii.eqb c quote || Ascii.eqb c backslash then String backslash (String c "")
  else if (n =? 9)%nat then String backslash "t"
  else if (n =? 10)%nat then String backslash "n"
  else if (n =? 13)%nat then String backslash "r"
  else if isprintable n then String c ""
  else String backslash (String "x" (String (hex_digit (n / 16)) (String (hex_digit (n mod 16)) ""))).

Fixpoint repr_chars (quote : ascii) (s : string) : string :=
  match s with
  | EmptyString => ""
  | String c r => repr_char quote c ++ repr_chars quote r
  end.

Definition repr_str (s : string) : string :=
  let quote := if str_mem squote s && negb (str_mem dquote s) then dquote else squote in
  String quote (repr_chars quote s ++ String quote "").

Fixpoint join (sep : string) (l : list string) : string :=
  match l with
  | [] => ""
  | [x] => x
  | x :: r => x ++ sep ++ join sep r
  end.

Fixpoint py_repr (v : value) : string :=
  match v with
  | VNone => "None"
  | VBool true => "True"
  | VBool false => "False"
  | VInt z => str_of_Z z
  | VStr s => repr_str s
  | VList l => "[" ++ join ", " (map py_repr l) ++ "]"
  | VDict d =>
      "{" ++ join ", " (map (fun kv => repr_str (fst kv) ++ ": " ++ py_repr (snd kv)) d) ++ "}"
  end.

(** [str(v)]. *)
Definition py_str (v : value) : string :=
  match v with
  | VStr s => s
  | _ => py_repr v
  end.

(** [needle in s] for strings. *)
Fixpoint is_substring (needle s : string) : bool :=
  String.prefix needle s ||
  match s with
  | EmptyString => false
  | String _ r => is_substring needle r
  end.

(** [v == w] on the values that can be hashed: [True == 1] and [False == 0]. *)
Definition py_eq_scalar (v w : value) : bool :=
  match v, w with
  | VNone, VNone => true
  | VBool a, VBool b => Bool.eqb a b
  | VBool a, VInt z | VInt z, VBool a => Z.eqb z (if a then 1 else 0)
  | VInt a, VInt b => Z.eqb a b
  | VStr a, VStr b => String.eqb a b
  | _, _ => false
  end.

(** [needle in v] for a string [needle]. *)
Definition py_contains (needle : string) (v : value) : result bool :=
  match v with
  | VDict d => Ok (dict_mem d needle)
  | VList l => Ok (existsb (fun x => match x with VStr s => String.eqb needle s | _ => false end) l)
  | VStr s => Ok (is_substring needle s)
  | _ => Raise (TypeError ("argument of type '" ++ type_name v ++ "' is not iterable"))
  end.

(** Iterating over [v] in a [for] loop: a list gives its elements, a dict
    its keys, a string its characters. *)
Fixpoint chars (s : string) : list value :=
  match s with
  | EmptyString => []
  | String c r => VStr (String c "") :: chars r
  end.

Definition py_iter (v : value) : result (list value) :=
  match v with
  | VList l => Ok l
  | VDict d => Ok (map (fun kv => VStr (fst kv)) d)
  | VStr s => Ok (chars s)
  | _ => Raise (TypeError ("'" ++ type_name v ++ "' object is not iterable"))
  end.

(** *** Sets *)

(** A set of hashable values: the elements without repetition, in the order
    they were first added.  The order carries no meaning. *)
Definition pyset : Type := list value.

Definition hashable (v : value) : bool :=
  match v with
  | VList _ | VDict _ => false
  | _ => true
  end.

(** [s.add(v)]. *)
Definition set_add (s : pyset) (v : value) : result pyset :=
  if hashable v then
    if existsb (py_eq_scalar v) s then Ok s else Ok (s ++ [v])%list
  else Raise (TypeError ("unhashable type: '" ++ type_name v ++ "'")).

(** [v[k]] for a string [k]: only a mapping can be subscripted by a
    string. *)
Definition py_subscript (v : value) (k : string) : result value :=
  match v with
  | VDict d => py_getitem d k
  | VStr _ => Raise (TypeError "string indices must be integers")
  | VList _ => Raise (TypeError "list indices must be integers or slices, not str")
  | _ => Raise (TypeError ("'" ++ type_name v ++ "' object is not subscriptable"))
  end.

(** ** semgrep.semgrep_types *)

(** Modelled from the spec: [OPERATORS] lives in [semgrep.semgrep_types],
    which is not part of the sources.  The four top-level families, and the
    finer-grained operators of nested lists the spec names (negation and
    pattern-inside). *)
Inductive Operator : Type :=
| AND
| REGEX
| AND_ALL
| AND_EITHER
| AND_NOT
| AND_INSIDE.

Definition Operator_eqb (a b : Operator) : bool :=
  match a, b with
  | AND, AND | REGEX, REGEX | AND_ALL, AND_ALL | AND_EITHER, AND_EITHER
  | AND_NOT, AND_NOT | AND_INSIDE, AND_INSIDE => true
  | _, _ => false
  end.

(** Modelled from the spec: the fixed table between operators and the key
    names that denote them ([pattern], [pattern-regex], [patterns],
    [pattern-either], [pattern-not], [pattern-inside]). *)
Definition OPERATOR_PATTERN_NAMES_MAP : list (Operator * list string) :=
  [ (AND, ["pattern"]);
    (REGEX, ["pattern-regex"]);
    (AND_ALL, ["patterns"]);
    (AND_EITHER, ["pattern-either"]);
    (AND_NOT, ["pattern-not"]);
    (AND_INSIDE, ["pattern-inside"]) ].

(** Modelled from the spec: the accepted key names of an operator. *)
Definition pattern_names_for_operator (operator : Operator) : list string :=
  flat_map (fun e => if Operator_eqb (fst e) operator then snd e else [])
           OPERATOR_PATTERN_NAMES_MAP.

(** Modelled from the spec: a key is resolved to an operator through the
    fixed table; an unknown key fails with a schema error. *)
Definition operator_for_pattern_name (pattern_name : string) : result Operator :=
  match find (fun e => existsb (String.eqb pattern_name) (snd e))
             OPERATOR_PATTERN_NAMES_MAP with
  | Some e => Ok (fst e)
  | None => Raise (InvalidRuleSchema (Text ("invalid pattern name: " ++ pattern_name)))
  end.

(** Modelled from the spec: the operators accepted at the top level of a
    rule, and the key names of a collection of operators, grouped by
    family. *)
Definition YAML_VALID_TOP_LEVEL_OPERATORS : list Operator :=
  [AND; REGEX; AND_ALL; AND_EITHER].

Definition pattern_names_for_operators (operators : list Operator) : list string :=
  flat_map pattern_names_for_operator operators.

(** Modelled from the spec: the allowed glob rule types, an include name and
    [exclude]. *)
Definition ALLOWED_GLOB_TYPES : list string := ["include"; "exclude"].

(** Modelled from the spec: a node of the boolean expression tree, with the
    fields [operator], [pattern_id], [children], [operand] (the raw pattern
    text) and [span].  The constructor takes them in this order and stores
    them as they are; [None] is an absent field.  [PatternId] is a string. *)
Inductive BooleanRuleExpression : Type :=
| mkExpression (operator : Operator)
               (pattern_id : option value)
               (children : option (list BooleanRuleExpression))
               (operand : option value)
               (span : Span).

Definition operator (e : BooleanRuleExpression) : Operator :=
  match e with mkExpression o _ _ _ _ => o end.
Definition pattern_id (e : BooleanRuleExpression) : option value :=
  match e with mkExpression _ i _ _ _ => i end.
Definition children (e : BooleanRuleExpression) : option (list BooleanRuleExpression) :=
  match e with mkExpression _ _ c _ _ => c end.
Definition operand (e : BooleanRuleExpression) : option value :=
  match e with mkExpression _ _ _ t _ => t end.
Definition span (e : BooleanRuleExpression) : Span :=
  match e with mkExpression _ _ _ _ s => s end.

Definition PatternId (s : string) : value := VStr s.

(** Modelled from the spec: the glob set, two sets of patterns. *)
Record RuleGlobs : Type := mkRuleGlobs {
  include : pyset;
  exclude : pyset
}.

(** Modelled from the spec: [Equivalence] lives in [semgrep.equivalences],
    which is not part of the sources.  An equivalence declaration has an
    identifier, the raw equivalence text and the language list it inherits;
    the constructor takes them in this order and stores them as they are. *)
Record Equivalence : Type := mkEquivalence {
  equivalence_id : string;
  equivalence_pattern : value;
  equivalence_languages : value
}.

(** Modelled from the spec: [OPERATORS.EQUIVALENCES], the key of the
    equivalences list of a rule document. *)
Definition EQUIVALENCES : string := "equivalences".

(** ** class Rule *)

Module Rule.

(** *** Rule._parse_boolean_expression *)

(** The generator is drained by [list(...)] as soon as it is created, so it
    is modelled by the list of what it yields, or the first exception it
    raises.  The two nested [for] loops thread the local counter
    [pattern_id]. *)
Section parse_loops.
(** the recursive call of [_parse_boolean_expression] *)
Variable recurse : value -> dict -> nat -> string -> result (list BooleanRuleExpression).
Variable prefix : string.

(** [for boolean_operator, pattern_text in pattern.items()] *)
Fixpoint parse_items (pattern : dict) (items : dict) (pattern_id : nat)
  : result (list BooleanRuleExpression * nat) :=
  match items with
  | [] => Ok ([], pattern_id)
  | (boolean_operator, pattern_text) :: rest =>
      if startswith boolean_operator "__" then parse_items pattern rest pattern_id
      else
        operator <- operator_for_pattern_name boolean_operator ;;
        match pattern_text with
        | VList _ =>
            sub_expression <-
              recurse pattern_text pattern 0 (prefix ++ "." ++ str_of_nat pattern_id) ;;
            ' (later, n) <- parse_items pattern rest pattern_id ;;
            Ok (mkExpression operator None (Some sub_expression) None
                  (Span_from_dict pattern None) :: later, n)
        | VStr _ =>
            ' (later, n) <- parse_items pattern rest (S pattern_id) ;;
            Ok (mkExpression operator
                  (Some (PatternId (prefix ++ "." ++ str_of_nat pattern_id)))
                  None (Some pattern_text)
                  (Span_from_dict pattern None) :: later, n)
        | _ =>
            Raise (InvalidRuleSchema (Text
              ("invalid type for pattern " ++ py_str (VDict pattern) ++ ": "
               ++ type_str pattern_text)))
        end
  end.

(** [for pattern in rule_patterns] *)
Fixpoint parse_patterns (rule_patterns : list value) (pattern_id : nat)
  : result (list BooleanRuleExpression) :=
  match rule_patterns with
  | [] => Ok []
  | pattern :: rest =>
      match pattern with
      | VDict items =>
          ' (yielded, n) <- parse_items items items pattern_id ;;
          later <- parse_patterns rest n ;;
          Ok (yielded ++ later)%list
      | _ =>
          Raise (InvalidRuleSchema (Text
            ("invalid type for pattern " ++ py_str pattern ++ ": "
             ++ type_str pattern ++ " is not a dict")))
      end
  end.
End parse_loops.

Fixpoint _parse_boolean_expression (rule_patterns : value) (parent : dict)
    (pattern_id : nat) (prefix : string) {struct rule_patterns}
  : result (list BooleanRuleExpression) :=
  match rule_patterns with
  | VList patterns =>
      parse_patterns _parse_boolean_expression prefix patterns pattern_id
  | _ =>
      let span :=
        match rule_patterns with
        | VDict d => Span_from_dict d (Some 1)
        | _ => Span_from_dict parent None
        end in
      let err := {|
        short_msg := "invalid type for `patterns`";
        long_msg := "invalid type for `patterns` (expected list, found "
                    ++ type_name rule_patterns ++ ")";
        level := "error";
        help := Some "perhaps your YAML is missing a `-`?";
        spans := [Span_or span DUMMY_SPAN]
      |} in
      Raise (InvalidRuleSchema (Emit err))
  end.

(** *** Rule._build_boolean_expression *)

(** A [for pattern_name in ...: if ...: return ...] loop: [Some r] when the
    loop returns (or raises) [r], [None] when it runs to its end. *)
Fixpoint single_loop (operator : Operator) (rule_raw : dict) (span : Span)
    (names : list string) : option (result BooleanRuleExpression) :=
  match names with
  | [] => None
  | pattern_name :: rest =>
      let pattern := py_get rule_raw pattern_name VNone in
      if truthy pattern then
        Some (id <- py_getitem rule_raw "id" ;;
              text <- py_getitem rule_raw pattern_name ;;
              Ok (mkExpression operator (Some id) None (Some text) span))
      else single_loop operator rule_raw span rest
  end.

Fixpoint composite_loop (operator : Operator) (rule_raw : dict) (span : Span)
    (names : list string) : option (result BooleanRuleExpression) :=
  match names with
  | [] => None
  | pattern_name :: rest =>
      let patterns := py_get rule_raw pattern_name VNone in
      if truthy patterns then
        Some (parsed <- _parse_boolean_expression patterns rule_raw 0 "" ;;
              Ok (mkExpression operator None (Some parsed) None span))
      else composite_loop operator rule_raw span rest
  end.

(** The loops in program order: the first one that returns decides. *)
Fixpoint first_return {A : Type} (loops : list (option A)) (otherwise : A) : A :=
  match loops with
  | [] => otherwise
  | Some r :: _ => r
  | None :: rest => first_return rest otherwise
  end.

Definition _build_boolean_expression (rule_raw : dict) : result BooleanRuleExpression :=
  let span := Span_from_dict rule_raw None in
  first_return
    [ single_loop AND rule_raw span (pattern_names_for_operator AND);
      single_loop REGEX rule_raw span (pattern_names_for_operator REGEX);
      composite_loop AND_ALL rule_raw span (pattern_names_for_operator AND_ALL);
      composite_loop AND_EITHER rule_raw span (pattern_names_for_operator AND_EITHER) ]
    (let valid_top_level_keys := YAML_VALID_TOP_LEVEL_OPERATORS in
     Raise (InvalidRuleSchema (TextNames
       "missing a pattern type in rule, expected one of "
       (pattern_names_for_operators valid_top_level_keys)))).

(** *** Rule._build_globs *)

(** [for rule_value in rule_values: glob_set.add(rule_value)] *)
Fixpoint add_values (glob_set : pyset) (rule_values : list value) : result pyset :=
  match rule_values with
  | [] => Ok glob_set
  | rule_value :: rest =>
      glob_set' <- set_add glob_set rule_value ;;
      add_values glob_set' rest
  end.

(** [for rule_type, rule in rule_raw.get("paths", {}).items()] *)
Fixpoint globs_loop (items : dict) (globs : RuleGlobs) : result RuleGlobs :=
  match items with
  | [] => Ok globs
  | (rule_type, rule) :: rest =>
      if startswith rule_type "__" then globs_loop rest globs
      else if negb (existsb (String.eqb rule_type) ALLOWED_GLOB_TYPES) then
        Raise (InvalidRuleSchema (TextNames
          "the `paths:` targeting rules must each be one of " ALLOWED_GLOB_TYPES))
      else
        let rule_values := match rule with VStr _ => VList [rule] | _ => rule end in
        values <- py_iter rule_values ;;
        if String.eqb rule_type "exclude" then
          glob_set <- add_values (exclude globs) values ;;
          globs_loop rest {| include := include globs; exclude := glob_set |}
        else
          glob_set <- add_values (include globs) values ;;
          globs_loop rest {| include := glob_set; exclude := exclude globs |}
  end.

Definition _build_globs (rule_raw : dict) : result RuleGlobs :=
  let globs := {| include := []; exclude := [] |} in
  let paths_raw := py_get rule_raw "paths" (VDict []) in
  match paths_raw with
  | VDict items => globs_loop items globs
  | _ =>
      Raise (InvalidRuleSchema (TextNames
        "the `paths:` targeting rules must be an object with at least one of "
        ALLOWED_GLOB_TYPES))
  end.

(** *** The object and its constructor *)

(** A rule keeps a reference to the document it was built from, not a copy.
    Documents are objects of the interpreter's heap; a reference names one
    of them. *)
Definition ref : Type := nat.
Definition heap : Type := ref -> dict.

(** Code that runs against the heap and may raise. *)
Definition M (A : Type) : Type := heap -> result A * heap.

Definition ret {A : Type} (a : A) : M A := fun h => (Ok a, h).

Definition mbind {A B : Type} (m : M A) (k : A -> M B) : M B :=
  fun h =>
    match m h with
    | (Ok a, h') => k a h'
    | (Raise e, h') => (Raise e, h')
    end.

(** Running code that only reads the document a reference points to. *)
Definition reading {A : Type} (raw : ref) (f : dict -> result A) : M A :=
  fun h => (f (h raw), h).

Record t : Type := mkRule {
  _raw : ref;
  _expression : BooleanRuleExpression;
  _globs : RuleGlobs
}.

Definition __init__ (raw : ref) : M t :=
  mbind (reading raw _build_boolean_expression) (fun expression =>
  mbind (reading raw _build_globs) (fun globs =>
  ret {| _raw := raw; _expression := expression; _globs := globs |})).

Definition from_json (rule_json : ref) : M t := __init__ rule_json.

(** *** Properties and exports *)

(** The properties read the document through the reference the rule holds. *)
Definition id (self : t) (h : heap) : result string :=
  v <- py_getitem (h (_raw self)) "id" ;; Ok (py_str v).

Definition message (self : t) (h : heap) : result string :=
  v <- py_getitem (h (_raw self)) "message" ;; Ok (py_str v).

Definition metadata (self : t) (h : heap) : value :=
  py_get (h (_raw self)) "metadata" (VDict []).

Definition severity (self : t) (h : heap) : result string :=
  v <- py_getitem (h (_raw self)) "severity" ;; Ok (py_str v).

Definition sarif_severity (self : t) (h : heap) : result string :=
  let mapping := [("INFO", VStr "note"); ("ERROR", VStr "error"); ("WARNING", VStr "warning")] in
  key <- severity self h ;;
  v <- py_getitem mapping key ;;
  Ok (py_str v).

(** [list(self.sarif_tags)] *)
Definition sarif_tags (self : t) (h : heap) : result (list value) :=
  cwe <- py_contains "cwe" (metadata self h) ;;
  owasp <- py_contains "owasp" (metadata self h) ;;
  Ok ((if cwe then [VStr "cwe"] else []) ++ (if owasp then [VStr "owasp"] else []))%list.

Definition languages (self : t) (h : heap) : result value :=
  py_getitem (h (_raw self)) "languages".

Definition raw (self : t) : ref := _raw self.

Definition expression (self : t) : BooleanRuleExpression := _expression self.

Definition globs (self : t) : RuleGlobs := _globs self.

Definition fix_ (self : t) (h : heap) : value :=
  py_get (h (_raw self)) "fix" VNone.

Definition to_json (self : t) : ref := _raw self.

Definition to_sarif (self : t) (h : heap) : result value :=
  id1 <- id self h ;;
  id2 <- id self h ;;
  message1 <- message self h ;;
  message2 <- message self h ;;
  level <- sarif_severity self h ;;
  tags <- sarif_tags self h ;;
  Ok (VDict
    [ ("id", VStr id1);
      ("name", VStr id2);
      ("shortDescription", VDict [("text", VStr message1)]);
      ("fullDescription", VDict [("text", VStr message2)]);
      ("defaultConfiguration", VDict [("level", VStr level)]);
      ("properties", VDict [("precision", VStr "very-high"); ("tags", VList tags)]) ]).

(** [for i, eq in enumerate(...)], from the index [i] on *)
Fixpoint equivalences_loop (self : t) (h : heap) (i : nat) (eqs : list value)
  : result (list Equivalence) :=
  match eqs with
  | [] => Ok []
  | eq :: rest =>
      rule_id <- id self h ;;
      text <- py_subscript eq "equivalence" ;;
      langs <- languages self h ;;
      later <- equivalences_loop self h (S i) rest ;;
      Ok (mkEquivalence (rule_id ++ "-" ++ str_of_nat i) text langs :: later)
  end.

Definition equivalences (self : t) (h : heap) : result (list Equivalence) :=
  eqs <- py_iter (py_get (h (_raw self)) EQUIVALENCES (VList [])) ;;
  equivalences_loop self h 0 eqs.

End Rule.

(** ** Walking a compiled tree *)

(** All the nodes of a tree, the root first. *)
Fixpoint nodes (e : BooleanRuleExpression) : list BooleanRuleExpression :=
  e :: match e with
       | mkExpression _ _ (Some c) _ _ => flat_map nodes c
       | mkExpression _ _ None _ _ => []
       end.

(** The leaves of a tree, in order: the nodes without a [children] field. *)
Fixpoint leaves (e : BooleanRuleExpression) : list BooleanRuleExpression :=
  match e with
  | mkExpression _ _ (Some c) _ _ => flat_map leaves c
  | mkExpression _ _ None _ _ => [e]
  end.

Definition leaf_ids (e : BooleanRuleExpression) : list (option value) :=
  map pattern_id (leaves e).

(** [children] is present and not empty. *)
Definition has_children (e : BooleanRuleExpression) : bool :=
  match children e with
  | Some (_ :: _) => true
  | _ => false
  end.

(** [children] is present, empty or not. *)
Definition children_present (e : BooleanRuleExpression) : bool :=
  match children e with
  | Some _ => true
  | None => false
  end.

(** [pattern_text] is present. *)
Definition has_text (e : BooleanRuleExpression) : bool :=
  match operand e with
  | Some _ => true
  | None => false
  end.

(** The pattern strings of a pattern list, in document order: the string
    values under keys that are not annotations, through nested lists. *)
Definition item_strings (inner : value -> list string) (kv : string * value)
  : list string :=
  if startswith (fst kv) "__" then []
  else match snd kv with
       | VStr s => [s]
       | VList _ => inner (snd kv)
       | _ => []
       end.

Definition mapping_strings (inner : value -> list string) (pattern : value)
  : list string :=
  match pattern with
  | VDict items => flat_map (item_strings inner) items
  | _ => []
  end.

Fixpoint pattern_strings (v : value) : list string :=
  match v with
  | VList l => flat_map (mapping_strings pattern_strings) l
  | _ => []
  end.

(** The tree without pattern texts and source spans: operators, identifiers
    and nesting. *)
Inductive skeleton : Type :=
| Skeleton (operator : Operator) (pattern_id : option value)
           (children : option (list skeleton)).

Fixpoint skeleton_of (e : BooleanRuleExpression) : skeleton :=
  match e with
  | mkExpression o i c _ _ => Skeleton o i (option_map (map skeleton_of) c)
  end.

(** What a compilation shows of operators and identifiers: the skeleton of
    its tree, nothing when it raised. *)
Definition outline (r : result BooleanRuleExpression) : option skeleton :=
  match r with
  | Ok e => Some (skeleton_of e)
  | Raise _ => None
  end.

(** The shape of a value: every string is replaced by a placeholder that is
    empty exactly when the string is. *)
Fixpoint erase (v : value) : value :=
  match v with
  | VStr s => VStr (if String.eqb s "" then "" else "_")
  | VList l => VList (map erase l)
  | VDict d => VDict (map (fun kv => (fst kv, erase (snd kv))) d)
  | _ => v
  end.

(** The shape of a rule document: the shape of every value, the rule's own
    [id] apart. *)
Definition shape (rule_raw : dict) : dict :=
  map (fun kv => (fst kv, if String.eqb (fst kv) "id" then snd kv else erase (snd kv)))
      rule_raw.

(** [del d[k]] for each of the keys, where present. *)
Definition without (keys : list string) (d : dict) : dict :=
  filter (fun kv => negb (existsb (String.eqb (fst kv)) keys)) d.

(** [needle] occurs in [s]. *)
Definition mentions (needle s : string) : Prop :=
  exists before after, s = before ++ needle ++ after.

(** A property holds of the values inside the mappings of a pattern list. *)
Definition inside_mappings (P : value -> Prop) (l : list value) : Prop :=
  Forall (fun pattern =>
            match pattern with
            | VDict items => Forall (fun kv => P (snd kv)) items
            | _ => True
            end) l.

(** [children] is present exactly when the pattern text is not. *)
Definition composite_or_leaf (e : BooleanRuleExpression) : Prop :=
  xorb (children_present e) (has_text e) = true.

(** The pattern texts of the leaves of a list of trees, and pattern strings
    seen as pattern texts. *)
Definition texts (l : list BooleanRuleExpression) : list (option value) :=
  map operand (flat_map leaves l).

Definition as_texts (l : list string) : list (option value) :=
  map (fun s => Some (VStr s)) l.


(** The outline of a drained generator, and of one pass of its inner loop
    with the counter it ends on. *)
Definition outline_list (r : result (list BooleanRuleExpression))
  : option (list skeleton) :=
  match r with
  | Ok l => Some (map skeleton_of l)
  | Raise _ => None
  end.

Definition outline_items (r : result (list BooleanRuleExpression * nat))
  : option (list skeleton * nat) :=
  match r with
  | Ok (l, n) => Some (map skeleton_of l, n)
  | Raise _ => None
  end.

Definition erase_item (kv : string * value) : string * value :=
  (fst kv, erase (snd kv)).

(** ** The SARIF projection in the spec's words *)

(** The severity table of the spec (4.4). *)
Definition spec_levels : list (string * string) :=
  [ ("INFO", "note"); ("WARNING", "warning"); ("ERROR", "error") ].

(** The tags of the spec (4.4): [cwe] when the metadata has a [cwe] key,
    [owasp] when it has an [owasp] key, nothing else. *)
Definition spec_tags (metadata : dict) : list value :=
  ((if dict_mem metadata "cwe" then [VStr "cwe"] else [])
   ++ (if dict_mem metadata "owasp" then [VStr "owasp"] else []))%list.

(** The descriptor of the spec for a rule with the given identifier,
    message, level and tags. *)
Definition spec_descriptor (rule_id message level : string) (tags : list value) : value :=
  VDict
    [ ("id", VStr rule_id);
      ("name", VStr rule_id);
      ("shortDescription", VDict [("text", VStr message)]);
      ("fullDescription", VDict [("text", VStr message)]);
      ("defaultConfiguration", VDict [("level", VStr level)]);
      ("properties", VDict [("precision", VStr "very-high"); ("tags", VList tags)]) ].

(** The keys a rule document is required to have besides [id] and its
    pattern. *)
Definition required_keys : list string := ["message"; "severity"; "languages"].

(** ** When compilation succeeds *)

Definition succeeds {A : Type} (r : result A) : bool :=
  match r with
  | Ok _ => true
  | Raise _ => false
  end.

(** A pattern list the expression builder accepts: a list of mappings in
    which every key that is not an annotation names an operator and holds
    a string or an accepted list. *)
Definition item_ok (inner : value -> bool) (kv : string * value) : bool :=
  startswith (fst kv) "__" ||
  (succeeds (operator_for_pattern_name (fst kv)) &&
   match snd kv with
   | VStr _ => true
   | VList _ => inner (snd kv)
   | _ => false
   end).

Definition mapping_ok (inner : value -> bool) (pattern : value) : bool :=
  match pattern with
  | VDict items => forallb (item_ok inner) items
  | _ => false
  end.

Fixpoint patterns_ok (v : value) : bool :=
  match v with
  | VList l => forallb (mapping_ok patterns_ok) l
  | _ => false
  end.

(** A rule document the top-level dispatch accepts: the first truthy family
    is a single pattern and the rule has an [id], or it is a composite one
    over an accepted pattern list. *)
Definition expression_ok (rule_raw : dict) : bool :=
  if truthy (py_get rule_raw "pattern" VNone) then dict_mem rule_raw "id"
  else if truthy (py_get rule_raw "pattern-regex" VNone) then dict_mem rule_raw "id"
  else if truthy (py_get rule_raw "patterns" VNone)
       then patterns_ok (py_get rule_raw "patterns" VNone)
  else if truthy (py_get rule_raw "pattern-either" VNone)
       then patterns_ok (py_get rule_raw "pattern-either" VNone)
  else false.

(** A [paths] entry the glob builder accepts: an annotation, or an allowed
    rule type over a string, a list of hashable values or a mapping. *)
Definition glob_rule_ok (kv : string * value) : bool :=
  startswith (fst kv) "__" ||
  (existsb (String.eqb (fst kv)) ALLOWED_GLOB_TYPES &&
   match snd kv with
   | VStr _ => true
   | VList l => forallb hashable l
   | VDict _ => true
   | _ => false
   end).

Definition paths_ok (rule_raw : dict) : bool :=
  match py_get rule_raw "paths" (VDict []) with
  | VDict items => forallb glob_rule_ok items
  | _ => false
  end.

(** ** Entries, siblings and sets *)

(** The entries of the mappings of a pattern list that are not annotations,
    in document order. *)
Definition entries (patterns : list value) : list (string * value) :=
  flat_map (fun pattern =>
              match pattern with
              | VDict items => filter (fun kv => negb (startswith (fst kv) "__")) items
              | _ => []
              end) patterns.

(** The pattern text an entry gives its node. *)
Definition entry_text (kv : string * value) : option value :=
  match snd kv with
  | VStr s => Some (VStr s)
  | _ => None
  end.

Definition is_leaf (e : BooleanRuleExpression) : bool :=
  negb (children_present e).

(** The identifiers [prefix.n], [prefix.(n+1)], ... of [count] sibling
    leaves. *)
Definition sibling_ids (prefix : string) (n count : nat) : list (option value) :=
  map (fun k => Some (PatternId (prefix ++ "." ++ str_of_nat k))) (seq n count).

(** The values a [paths] rule contributes: the string itself, the elements
    of a list, the keys of a mapping. *)
Definition rule_values (rule : value) : list value :=
  match rule with
  | VStr _ => [rule]
  | VList l => l
  | VDict d => map (fun kv => VStr (fst kv)) d
  | _ => []
  end.

(** The string [s] is written under the rule type [rule_type] of a [paths]
    mapping. *)
Definition listed (items : dict) (rule_type s : string) : Prop :=
  exists rule, In (rule_type, rule) items /\ In (VStr s) (rule_values rule).

(** No two elements of a set are equal. *)
Definition distinct (s : pyset) : Prop :=
  ForallOrdPairs (fun a b => py_eq_scalar a b = false) s.

(** The document without the annotations of its pattern lists. *)
Definition drop_annotations_item (inner : value -> value) (kv : string * value)
  : list (string * value) :=
  if startswith (fst kv) "__" then []
  else [(fst kv, match snd kv with VList _ => inner (snd kv) | v => v end)].

Definition drop_annotations_mapping (inner : value -> value) (pattern : value) : value :=
  match pattern with
  | VDict items =>
      VDict (flat_map (drop_annotations_item inner) items)
  | _ => pattern
  end.

Fixpoint drop_annotations (v : value) : value :=
  match v with
  | VList l => VList (map (drop_annotations_mapping drop_annotations) l)
  | _ => v
  end.

(** The keys the top-level dispatch reads. *)
Definition expression_keys : list string :=
  ["id"; "pattern"; "pattern-regex"; "patterns"; "pattern-either"].

(** A tree with another source span at its root. *)
Definition with_span (e : BooleanRuleExpression) (s : Span) : BooleanRuleExpression :=
  mkExpression (operator e) (pattern_id e) (children e) (operand e) s.

(** A SARIF projection exists: [id] and [message] are there, the severity
    is one of the three, and the metadata can be searched. *)
Definition sarif_ok (doc : dict) : bool :=
  dict_mem doc "id" && dict_mem doc "message" &&
  match dict_get doc "severity" with
  | Some v => existsb (fun entry => String.eqb (py_str v) (fst entry)) spec_levels
  | None => false
  end &&
  match py_get doc "metadata" (VDict []) with
  | VDict _ | VList _ | VStr _ => true
  | _ => false
  end.

Definition entry_is_list (kv : string * value) : bool :=
  match snd kv with
  | VList _ => true
  | _ => false
  end.

Definition node_of_entry (nodes : list BooleanRuleExpression) (l : list (string * value))
  : Prop :=
  map (fun e => Ok (operator e)) nodes = map (fun kv => operator_for_pattern_name (fst kv)) l /\
  map operand nodes = map entry_text l /\
  map children_present nodes = map entry_is_list l.

Definition numbered (prefix : string) (n : nat) (nodes : list BooleanRuleExpression)
  : Prop :=
  map pattern_id (filter is_leaf nodes)
  = sibling_ids prefix n (List.length (filter is_leaf nodes)) /\
  Forall (fun e => is_leaf e = false -> pattern_id e = None) nodes.

Definition below (prefix : string) (i : option value) : Prop :=
  exists rest, i = Some (VStr (prefix ++ "." ++ rest)).

Definition proper_set (s : pyset) : Prop :=
  distinct s /\ Forall (fun v => hashable v = true) s.

Definition equivalence_name (rule_id : string) (i : nat) : string :=
  rule_id ++ "-" ++ str_of_nat i.

(** [P k c] holds of the children [c] of every node with children in the
    list, where [k] is the counter when the node was yielded: [n] plus the
    number of leaves before it. *)
Fixpoint nested_under (P : nat -> list BooleanRuleExpression -> Prop) (n : nat)
    (nodes : list BooleanRuleExpression) : Prop :=
  match nodes with
  | [] => True
  | e :: rest =>
      match children e with
      | Some c => P n c /\ nested_under P n rest
      | None => nested_under P (S n) rest
      end
  end.

(** Every pattern list, at every depth, has an entry that is not an
    annotation. *)
Definition item_populated (inner : value -> bool) (kv : string * value) : bool :=
  startswith (fst kv) "__" ||
  match snd kv with
  | VList _ => inner (snd kv)
  | _ => true
  end.

Definition mapping_populated (inner : value -> bool) (pattern : value) : bool :=
  match pattern with
  | VDict items => forallb (item_populated inner) items
  | _ => true
  end.

Fixpoint populated (v : value) : bool :=
  match v with
  | VList l =>
      match entries l with [] => false | _ => true end
      && forallb (mapping_populated populated) l
  | _ => true
  end.

(** The pattern list the dispatch uses, if it uses one, is populated. *)
Definition populated_rule (rule_raw : dict) : bool :=
  if truthy (py_get rule_raw "pattern" VNone) then true
  else if truthy (py_get rule_raw "pattern-regex" VNone) then true
  else if truthy (py_get rule_raw "patterns" VNone)
       then populated (py_get rule_raw "patterns" VNone)
  else if truthy (py_get rule_raw "pattern-either" VNone)
       then populated (py_get rule_raw "pattern-either" VNone)
  else true.

(** [children] is present and not empty exactly when the pattern text is
    absent. *)
Definition composite_xor_leaf (e : BooleanRuleExpression) : Prop :=
  xorb (has_children e) (has_text e) = true.

(** ** The top-level dispatch in the spec's words *)

(** The precedence of the spec (4.2) as a constant table: the families in
    the order they are tried, each with its key. *)
Definition spec_precedence : list (Operator * string) :=
  [ (AND, "pattern");
    (REGEX, "pattern-regex");
    (AND_ALL, "patterns");
    (AND_EITHER, "pattern-either") ].

(** The first family of the table whose key is present with a truthy
    value. *)
Definition spec_first_family (rule_raw : dict) : option (Operator * string) :=
  find (fun entry => truthy (py_get rule_raw (snd entry) VNone)) spec_precedence.

(** First match wins: a single-pattern family gives a node built from the
    key's value and the rule's own identifier, a composite family the
    expression builder's result over the key's value; without a match, a
    schema error that enumerates the accepted keys. *)
Definition spec_dispatch (rule_raw : dict) : result BooleanRuleExpression :=
  let span := Span_from_dict rule_raw None in
  match spec_first_family rule_raw with
  | Some (family, key) =>
      match family with
      | AND | REGEX =>
          id <- py_getitem rule_raw "id" ;;
          text <- py_getitem rule_raw key ;;
          Ok (mkExpression family (Some id) None (Some text) span)
      | _ =>
          built <- Rule._parse_boolean_expression (py_get rule_raw key VNone) rule_raw 0 "" ;;
          Ok (mkExpression family None (Some built) None span)
      end
  | None =>
      Raise (InvalidRuleSchema (TextNames
        "missing a pattern type in rule, expected one of "
        ["pattern"; "pattern-regex"; "patterns"; "pattern-either"]))
  end.

(** ** Sample documents *)

(** [paths: {include: [tests, "*.js"], exclude: build/output}] *)
Definition doc_globs : dict :=
  [ ("id", VStr "r");
    ("pattern", VStr "f(...)");
    ("paths", VDict [ ("include", VList [VStr "tests"; VStr "*.js"]);
                      ("exclude", VStr "build/output") ]) ].

(** Two [pattern-either] blocks under [patterns]. *)
Definition doc_two_either : dict :=
  [ ("id", VStr "r");
    ("patterns",
     VList [ VDict [("pattern-either", VList [VDict [("pattern", VStr "a")]])];
             VDict [("pattern-either", VList [VDict [("pattern", VStr "b")]])] ]) ].

(** The same nesting with other pattern texts. *)
Definition doc_two_either' : dict :=
  [ ("id", VStr "r");
    ("patterns",
     VList [ VDict [("pattern-either", VList [VDict [("pattern", VStr "f($X)")]])];
             VDict [("pattern-either", VList [VDict [("pattern", VStr "g($Y)")]])] ]) ].

(** An empty [pattern-either] under [patterns]. *)
Definition doc_empty_either : dict :=
  [ ("id", VStr "r");
    ("patterns", VList [ VDict [("pattern-either", VList [])] ]) ].

(** A single [pattern-regex]. *)
Definition doc_regex : dict :=
  [ ("id", VStr "r"); ("pattern-regex", VStr "a+b") ].

(** [patterns] is a mapping, and nothing else is there. *)
Definition doc_patterns_mapping : dict :=
  [ ("id", VStr "r"); ("patterns", VDict [("not-a-list", VBool true)]) ].

(** [patterns] is a mapping next to a [pattern]. *)
Definition doc_pattern_and_mapping : dict :=
  [ ("id", VStr "r");
    ("pattern", VStr "f(...)");
    ("patterns", VDict [("not-a-list", VBool true)]) ].

(** A complete rule with a [cwe] entry in its metadata. *)
Definition doc_sarif : dict :=
  [ ("id", VStr "r");
    ("message", VStr "m");
    ("severity", VStr "WARNING");
    ("languages", VList [VStr "python"]);
    ("metadata", VDict [("cwe", VStr "CWE-89")]);
    ("patterns", VList [ VDict [("pattern", VStr "a")]; VDict [("pattern-not", VStr "b")] ]) ].

(** [patterns] is a list of a bare string; [message], [severity] and
    [languages] are absent. *)
Definition doc_bare_string : dict :=
  [ ("id", VStr "r"); ("patterns", VList [VStr "f(...)"]) ].

(** A heap whose every reference points to the same document. *)
Definition heap_of (d : dict) : Rule.heap := fun _ => d.

(** ** Basic facts *)

Lemma bind_Ok {A B : Type} (m : result A) (k : A -> result B) (b : B) :
  bind m k = Ok b -> exists a, m = Ok a /\ k a = Ok b.
Proof.
  destruct m as [a|e]; simpl; intros H; [exists a; auto | discriminate].
Qed.

Ltac bind_inv H :=
  match type of H with
  | bind ?m _ = Ok _ =>
      let a := fresh "a" in
      let Ha := fresh "Ha" in
      let Hk := fresh "Hk" in
      destruct (bind_Ok _ _ _ H) as (a & Ha & Hk); clear H
  end.

(** Induction over pattern lists: a list of mappings whose values are
    pattern lists again, or anything that is not a list. *)
Lemma value_pattern_ind (P : value -> Prop) :
  (forall v, (forall l, v <> VList l) -> P v) ->
  (forall l, inside_mappings P l -> P (VList l)) ->
  forall v, P v.
Proof.
  intros Hother Hlist v.
  enough (H : P v /\ forall d, v = VDict d -> Forall (fun kv => P (snd kv)) d)
    by apply H.
  induction v as [| | | |l IH|d IH] using value_nested_ind;
    try (split; [apply Hother; discriminate | discriminate]).
  - split; [|discriminate]. apply Hlist.
    unfold inside_mappings. induction IH as [|x l [_ Hx] _ IHl]; constructor; auto.
    destruct x; auto.
  - split; [apply Hother; discriminate|].
    intros d' E. inversion E; subst d'.
    induction IH as [|kv d [Hkv _] _ IHd]; constructor; auto.
Qed.

Lemma truthy_present (d : dict) (k : string) :
  truthy (py_get d k VNone) = true ->
  exists v, dict_get d k = Some v /\ py_get d k VNone = v /\ truthy v = true.
Proof.
  unfold py_get. destruct (dict_get d k) as [v|]; simpl; intros H.
  - exists v; auto.
  - discriminate.
Qed.

Lemma dict_get_without (keys : list string) (d : dict) (k : string) :
  existsb (String.eqb k) keys = false ->
  dict_get (without keys d) k = dict_get d k.
Proof.
  intros Hk. induction d as [|[k' v] d IH]; simpl; [reflexivity|].
  destruct (String.eqb k' k) eqn:E.
  - apply String.eqb_eq in E; subst k'. rewrite Hk. simpl.
    rewrite String.eqb_refl. reflexivity.
  - destruct (existsb (String.eqb k') keys); simpl; [exact IH|].
    rewrite E. exact IH.
Qed.

Lemma dict_get_without_removed (keys : list string) (d : dict) (k : string) :
  existsb (String.eqb k) keys = true ->
  dict_get (without keys d) k = None.
Proof.
  intros Hk. induction d as [|[k' v] d IH]; simpl; [reflexivity|].
  destruct (existsb (String.eqb k') keys) eqn:E; simpl; [exact IH|].
  destruct (String.eqb k' k) eqn:E'; [|exact IH].
  apply String.eqb_eq in E'; subst k'. congruence.
Qed.

Example str_of_nat_10 : str_of_nat 10 = "10".
Proof. reflexivity. Qed.

Example str_of_Z_neg : str_of_Z (-42) = "-42" /\ str_of_Z 0 = "0".
Proof. split; reflexivity. Qed.

Example py_repr_dict :
  py_repr (VDict [("pattern", VStr "it's"); ("n", VList [VInt 1; VNone])])
  = "{'pattern': " ++ String dquote ("it's" ++ String dquote (", 'n': [1, None]}")).
Proof. reflexivity. Qed.

(** ** The glob sets *)

(** C1 (code at the failing input): for [paths: {include: [tests, "*.js"],
    exclude: build/output}] the globs are added to the sets as they are
    written: the include set holds [tests] and [*.js], not [tests/**] and
    [**/*.js]. *)
Theorem C1_globs_are_added_verbatim :
  Rule._build_globs doc_globs
  = Ok {| include := [VStr "tests"; VStr "*.js"];
          exclude := [VStr "build/output"] |}.
Proof. reflexivity. Qed.

(** ** The top-level dispatch *)

(** C5: the top-level dispatch is the precedence table of the spec: the
    families are tried in the order AND, REGEX, AND_ALL, AND_EITHER, the
    first one whose key has a truthy value is the only one used, whatever
    the other keys hold, and without such a key the compilation raises a
    schema error that lists the four accepted keys. *)
Theorem C5_dispatch_by_precedence (rule_raw : dict) :
  Rule._build_boolean_expression rule_raw = spec_dispatch rule_raw.
Proof.
  unfold Rule._build_boolean_expression, spec_dispatch, spec_first_family.
  simpl.
  destruct (truthy (py_get rule_raw "pattern" VNone)); [reflexivity|].
  destruct (truthy (py_get rule_raw "pattern-regex" VNone)); [reflexivity|].
  destruct (truthy (py_get rule_raw "patterns" VNone)); [reflexivity|].
  destruct (truthy (py_get rule_raw "pattern-either" VNone)); reflexivity.
Qed.

Lemma py_getitem_present (d : dict) (k : string) (v : value) :
  dict_get d k = Some v -> py_getitem d k = Ok v.
Proof. unfold py_getitem. intros ->. reflexivity. Qed.

Lemma py_get_present (d : dict) (k : string) (v default : value) :
  dict_get d k = Some v -> py_get d k default = v.
Proof. unfold py_get. intros ->. reflexivity. Qed.

(** C4: a rule with an [id] whose [pattern] is truthy, or whose [pattern]
    is not and whose [pattern-regex] is, compiles to one node: no children,
    the operator of the family, the rule's own [id] as [pattern_id] and the
    key's value as pattern text. *)
Theorem C4_single_pattern_leaf (rule_raw : dict) (rule_id text : value) :
  dict_get rule_raw "id" = Some rule_id ->
  (dict_get rule_raw "pattern" = Some text /\ truthy text = true) \/
  (truthy (py_get rule_raw "pattern" VNone) = false /\
   dict_get rule_raw "pattern-regex" = Some text /\ truthy text = true) ->
  exists tree,
    Rule._build_boolean_expression rule_raw = Ok tree /\
    nodes tree = [tree] /\
    children tree = None /\
    operator tree = (if truthy (py_get rule_raw "pattern" VNone) then AND else REGEX) /\
    pattern_id tree = Some rule_id /\
    operand tree = Some text.
Proof.
  intros Hid [[Hp Ht] | (Hp & Hr & Ht)].
  - exists (mkExpression AND (Some rule_id) None (Some text) (Span_from_dict rule_raw None)).
    unfold Rule._build_boolean_expression. simpl.
    rewrite (py_get_present _ _ _ VNone Hp), Ht.
    rewrite (py_getitem_present _ _ _ Hid), (py_getitem_present _ _ _ Hp).
    simpl. repeat split; reflexivity.
  - exists (mkExpression REGEX (Some rule_id) None (Some text) (Span_from_dict rule_raw None)).
    unfold Rule._build_boolean_expression. simpl.
    rewrite Hp. rewrite (py_get_present _ _ _ VNone Hr), Ht.
    rewrite (py_getitem_present _ _ _ Hid), (py_getitem_present _ _ _ Hr).
    simpl. repeat split; reflexivity.
Qed.

Lemma C4_single_pattern_leaf_witness :
  exists tree,
    Rule._build_boolean_expression doc_regex = Ok tree /\
    nodes tree = [tree] /\
    children tree = None /\
    operator tree = REGEX /\
    pattern_id tree = Some (VStr "r") /\
    operand tree = Some (VStr "a+b").
Proof.
  apply (C4_single_pattern_leaf doc_regex (VStr "r") (VStr "a+b")).
  - reflexivity.
  - right. repeat split; reflexivity.
Defined.

(** ** A [patterns] value that is not a list *)

Lemma parse_not_a_list (v : value) (parent : dict) (n : nat) (prefix : string) :
  (forall l, v <> VList l) ->
  Rule._parse_boolean_expression v parent n prefix
  = Raise (InvalidRuleSchema (Emit {|
      short_msg := "invalid type for `patterns`";
      long_msg := "invalid type for `patterns` (expected list, found " ++ type_name v ++ ")";
      level := "error";
      help := Some "perhaps your YAML is missing a `-`?";
      spans := [Span_or match v with
                        | VDict d => Span_from_dict d (Some 1)
                        | _ => Span_from_dict parent None
                        end DUMMY_SPAN] |})).
Proof.
  intros Hv. destruct v; try reflexivity. exfalso. apply (Hv l). reflexivity.
Qed.

(** C6 (as stated, refuted): the document [doc_pattern_and_mapping] has a
    mapping under [patterns], and its compilation succeeds: the truthy
    [pattern] next to it is the family that is used. *)
Lemma C6_counterexample :
  dict_get doc_pattern_and_mapping "patterns" = Some (VDict [("not-a-list", VBool true)]) /\
  exists self,
    Rule.__init__ 0 (heap_of doc_pattern_and_mapping)
    = (Ok self, heap_of doc_pattern_and_mapping).
Proof.
  split; [reflexivity|]. eexists. reflexivity.
Qed.

(** C6 (amended): when neither [pattern] nor [pattern-regex] is truthy and
    the value of [patterns] is truthy and not a list, the compilation raises
    a schema error whose long message says [expected list] and names the
    type of the value that was found. *)
Theorem C6_patterns_not_a_list (raw : Rule.ref) (h : Rule.heap) (v : value) :
  truthy (py_get (h raw) "pattern" VNone) = false ->
  truthy (py_get (h raw) "pattern-regex" VNone) = false ->
  dict_get (h raw) "patterns" = Some v ->
  truthy v = true ->
  (forall l, v <> VList l) ->
  exists err,
    Rule.__init__ raw h = (Raise (InvalidRuleSchema (Emit err)), h) /\
    long_msg err
    = "invalid type for `patterns` (expected list, found " ++ type_name v ++ ")" /\
    mentions "expected list" (long_msg err) /\
    mentions (type_name v) (long_msg err).
Proof.
  intros Hp Hr Hv Ht Hl.
  eexists. split.
  - unfold Rule.__init__, Rule.mbind, Rule.reading.
    unfold Rule._build_boolean_expression. simpl.
    rewrite Hp, Hr. rewrite (py_get_present _ _ _ VNone Hv), Ht.
    rewrite (parse_not_a_list _ _ _ _ Hl). simpl. reflexivity.
  - simpl. split; [reflexivity|]. split.
    + exists "invalid type for `patterns` (", (", found " ++ type_name v ++ ")").
      reflexivity.
    + exists "invalid type for `patterns` (expected list, found ", ")".
      reflexivity.
Qed.

Lemma C6_patterns_not_a_list_witness :
  exists err,
    Rule.__init__ 0 (heap_of doc_patterns_mapping)
    = (Raise (InvalidRuleSchema (Emit err)), heap_of doc_patterns_mapping) /\
    long_msg err = "invalid type for `patterns` (expected list, found dict)" /\
    mentions "expected list" (long_msg err) /\
    mentions "dict" (long_msg err).
Proof.
  apply (C6_patterns_not_a_list 0 (heap_of doc_patterns_mapping)
           (VDict [("not-a-list", VBool true)]));
    try reflexivity.
  intros l H. discriminate H.
Defined.

(** ** The two kinds of node *)

Lemma nodes_composite (o : Operator) (i : option value)
    (c : list BooleanRuleExpression) (t : option value) (s : Span) :
  nodes (mkExpression o i (Some c) t s)
  = mkExpression o i (Some c) t s :: flat_map nodes c.
Proof. reflexivity. Qed.

Section parse_nodes.
Variable P : BooleanRuleExpression -> Prop.
Hypothesis P_leaf : forall o i t s, P (mkExpression o i None (Some t) s).
Hypothesis P_composite : forall o i c s, P (mkExpression o i (Some c) None s).

Let all (l : list BooleanRuleExpression) : Prop :=
  Forall (fun e => Forall P (nodes e)) l.

Variable recurse : value -> dict -> nat -> string -> result (list BooleanRuleExpression).
Variable prefix : string.

Lemma parse_items_nodes (items : dict) :
  Forall (fun kv => forall parent n pre l,
            recurse (snd kv) parent n pre = Ok l -> all l) items ->
  forall pattern pid yielded n,
    Rule.parse_items recurse prefix pattern items pid = Ok (yielded, n) ->
    all yielded.
Proof.
  induction 1 as [|[k v] items Hv _ IH]; intros pattern pid yielded n H.
  - simpl in H. inversion H. constructor.
  - simpl in H. destruct (startswith k "__").
    + eapply IH; eauto.
    + bind_inv H. destruct v; try discriminate.
      * bind_inv Hk. destruct a0 as [later m]. inversion Hk0; subst.
        constructor; [|eapply IH; eauto].
        repeat constructor. apply P_leaf.
      * bind_inv Hk. bind_inv Hk0. destruct a1 as [later m].
        inversion Hk; subst.
        constructor; [|eapply IH; eauto].
        rewrite nodes_composite. constructor; [apply P_composite|].
        apply Forall_flat_map. eapply Hv; eauto.
Qed.

Lemma parse_patterns_nodes (patterns : list value) :
  inside_mappings (fun v => forall parent n pre l,
                     recurse v parent n pre = Ok l -> all l) patterns ->
  forall pid l,
    Rule.parse_patterns recurse prefix patterns pid = Ok l ->
    all l.
Proof.
  induction 1 as [|v patterns Hv _ IH]; intros pid l H.
  - simpl in H. inversion H. constructor.
  - simpl in H. destruct v; try discriminate.
    bind_inv H. destruct a as [yielded m]. bind_inv Hk.
    inversion Hk0; subst.
    apply Forall_app. split.
    + eapply parse_items_nodes; eauto.
    + eapply IH; eauto.
Qed.
End parse_nodes.

Lemma parse_nodes (P : BooleanRuleExpression -> Prop) :
  (forall o i t s, P (mkExpression o i None (Some t) s)) ->
  (forall o i c s, P (mkExpression o i (Some c) None s)) ->
  forall v parent n pre l,
    Rule._parse_boolean_expression v parent n pre = Ok l ->
    Forall (fun e => Forall P (nodes e)) l.
Proof.
  intros Hleaf Hcomposite v.
  induction v as [v Hv | patterns IH] using value_pattern_ind;
    intros parent n pre l H.
  - rewrite (parse_not_a_list _ _ _ _ Hv) in H. discriminate.
  - simpl in H. eapply parse_patterns_nodes; eauto.
Qed.

(** What a successful top-level dispatch returns: a single node for a
    single-pattern family, a node over the parsed list for a composite
    one. *)
Lemma build_boolean_expression_Ok (rule_raw : dict) (tree : BooleanRuleExpression) :
  Rule._build_boolean_expression rule_raw = Ok tree ->
  (exists family rule_id text,
      tree = mkExpression family (Some rule_id) None (Some text)
               (Span_from_dict rule_raw None)) \/
  (exists family key parsed,
      In (family, key) [(AND_ALL, "patterns"); (AND_EITHER, "pattern-either")] /\
      truthy (py_get rule_raw "pattern" VNone) = false /\
      truthy (py_get rule_raw "pattern-regex" VNone) = false /\
      truthy (py_get rule_raw key VNone) = true /\
      Rule._parse_boolean_expression (py_get rule_raw key VNone) rule_raw 0 "" = Ok parsed /\
      tree = mkExpression family None (Some parsed) None (Span_from_dict rule_raw None)).
Proof.
  unfold Rule._build_boolean_expression. simpl.
  destruct (truthy (py_get rule_raw "pattern" VNone)) eqn:E1.
  { intros H. bind_inv H. bind_inv Hk. inversion Hk0. left. eauto. }
  destruct (truthy (py_get rule_raw "pattern-regex" VNone)) eqn:E2.
  { intros H. bind_inv H. bind_inv Hk. inversion Hk0. left. eauto. }
  destruct (truthy (py_get rule_raw "patterns" VNone)) eqn:E3.
  { intros H. bind_inv H. inversion Hk. right.
    exists AND_ALL, "patterns", a. simpl. auto 10. }
  destruct (truthy (py_get rule_raw "pattern-either" VNone)) eqn:E4.
  { intros H. bind_inv H. inversion Hk. right.
    exists AND_EITHER, "pattern-either", a. simpl. auto 10. }
  discriminate.
Qed.

(** C3 (as stated, refuted): the rule [doc_empty_either] compiles, and the
    node of its empty [pattern-either] has neither a child nor a pattern
    text. *)
Lemma C3_counterexample :
  exists tree e,
    Rule._build_boolean_expression doc_empty_either = Ok tree /\
    In e (nodes tree) /\
    has_children e = false /\
    has_text e = false.
Proof.
  eexists. eexists. split; [reflexivity|].
  split; [right; left; reflexivity|].
  split; reflexivity.
Qed.

(** ** Leaves and identifiers *)

Lemma texts_app (l1 l2 : list BooleanRuleExpression) :
  texts (l1 ++ l2) = (texts l1 ++ texts l2)%list.
Proof. unfold texts. rewrite flat_map_app, map_app. reflexivity. Qed.

Lemma as_texts_app (l1 l2 : list string) :
  as_texts (l1 ++ l2) = (as_texts l1 ++ as_texts l2)%list.
Proof. unfold as_texts. apply map_app. Qed.

Section parse_leaves.
Variable recurse : value -> dict -> nat -> string -> result (list BooleanRuleExpression).
Variable inner : value -> list string.
Variable prefix : string.

Lemma parse_items_leaves (items : dict) :
  Forall (fun kv => forall parent n pre l,
            recurse (snd kv) parent n pre = Ok l ->
            texts l = as_texts (inner (snd kv))) items ->
  forall pattern pid yielded n,
    Rule.parse_items recurse prefix pattern items pid = Ok (yielded, n) ->
    texts yielded = as_texts (flat_map (item_strings inner) items).
Proof.
  induction 1 as [|[k v] items Hv _ IH]; intros pattern pid yielded n H.
  - simpl in H. inversion H. reflexivity.
  - simpl in H. simpl flat_map. unfold item_strings at 1. simpl fst. simpl snd.
    destruct (startswith k "__").
    + simpl. eapply IH; eauto.
    + bind_inv H. destruct v; try discriminate.
      * bind_inv Hk. destruct a0 as [later m]. inversion Hk0; subst.
        change (texts (?e :: later)) with (operand e :: texts later).
        simpl. f_equal. eapply IH; eauto.
      * bind_inv Hk. bind_inv Hk0. destruct a1 as [later m].
        inversion Hk; subst.
        rewrite as_texts_app. rewrite <- (IH _ _ _ _ Ha1).
        simpl in Hv. rewrite <- (Hv _ _ _ _ Ha0).
        unfold texts. simpl. rewrite map_app. reflexivity.
Qed.

Lemma parse_patterns_leaves (patterns : list value) :
  inside_mappings (fun v => forall parent n pre l,
                     recurse v parent n pre = Ok l ->
                     texts l = as_texts (inner v)) patterns ->
  forall pid l,
    Rule.parse_patterns recurse prefix patterns pid = Ok l ->
    texts l = as_texts (flat_map (mapping_strings inner) patterns).
Proof.
  induction 1 as [|v patterns Hv _ IH]; intros pid l H.
  - simpl in H. inversion H. reflexivity.
  - simpl in H. destruct v; try discriminate.
    bind_inv H. destruct a as [yielded m]. bind_inv Hk.
    inversion Hk0; subst.
    simpl flat_map. rewrite texts_app, as_texts_app.
    f_equal.
    + eapply parse_items_leaves; eauto.
    + eapply IH; eauto.
Qed.
End parse_leaves.

(** The leaves of a parsed pattern list carry the pattern strings of the
    list, one leaf per string, in document order. *)
Lemma parse_leaves (v : value) :
  forall parent n pre l,
    Rule._parse_boolean_expression v parent n pre = Ok l ->
    texts l = as_texts (pattern_strings v).
Proof.
  induction v as [v Hv | patterns IH] using value_pattern_ind;
    intros parent n pre l H.
  - rewrite (parse_not_a_list _ _ _ _ Hv) in H. discriminate.
  - simpl in H. simpl pattern_strings.
    eapply parse_patterns_leaves; eauto.
Qed.

(** A composite rule has as many leaves as its pattern list has pattern
    strings. *)
Lemma composite_rule_leaf_count (rule_raw : dict) (tree : BooleanRuleExpression) :
  truthy (py_get rule_raw "pattern" VNone) = false ->
  truthy (py_get rule_raw "pattern-regex" VNone) = false ->
  Rule._build_boolean_expression rule_raw = Ok tree ->
  exists key,
    In key ["patterns"; "pattern-either"] /\
    truthy (py_get rule_raw key VNone) = true /\
    map operand (leaves tree) = as_texts (pattern_strings (py_get rule_raw key VNone)) /\
    List.length (leaves tree) = List.length (pattern_strings (py_get rule_raw key VNone)).
Proof.
  intros H1 H2 H.
  destruct (build_boolean_expression_Ok _ _ H)
    as [(family & rule_id & text & ->) | (family & key & parsed & Hin & _ & _ & Ht & Hp & ->)].
  - unfold Rule._build_boolean_expression in H. simpl in H.
    rewrite H1, H2 in H.
    destruct (truthy (py_get rule_raw "patterns" VNone)).
    { bind_inv H. discriminate. }
    destruct (truthy (py_get rule_raw "pattern-either" VNone)).
    { bind_inv H. discriminate. }
    discriminate.
  - exists key. split.
    { destruct Hin as [E|[E|[]]]; inversion E; simpl; auto. }
    split; [exact Ht|].
    pose proof (parse_leaves _ _ _ _ _ Hp) as Hl. unfold texts in Hl.
    split; [exact Hl|].
    apply (f_equal (@List.length _)) in Hl. unfold as_texts in Hl.
    rewrite !List.length_map in Hl. exact Hl.
Qed.

(** C2 (code at the failing input): the rule [doc_two_either], two
    [pattern-either] blocks under [patterns], compiles to a tree with two
    leaves, one per pattern string, and both leaves carry the identifier
    [.0.0]. *)
Theorem C2_pattern_ids_repeat :
  exists tree,
    Rule._build_boolean_expression doc_two_either = Ok tree /\
    map operand (leaves tree) = [Some (VStr "a"); Some (VStr "b")] /\
    leaf_ids tree = [Some (VStr ".0.0"); Some (VStr ".0.0")] /\
    ~ NoDup (leaf_ids tree).
Proof.
  eexists. split; [reflexivity|].
  split; [reflexivity|]. split; [reflexivity|].
  intros H. inversion H as [|x l Hnotin _]; subst.
  apply Hnotin. left. reflexivity.
Qed.

(** ** Identifiers depend on the shape only *)

Lemma truthy_erase (v : value) : truthy (erase v) = truthy v.
Proof.
  destruct v as [| | |s|l|d]; simpl; try reflexivity.
  - destruct s; reflexivity.
  - destruct l; reflexivity.
  - destruct d; reflexivity.
Qed.

Lemma outline_list_eq (r1 r2 : result (list BooleanRuleExpression)) :
  outline_list r1 = outline_list r2 ->
  (exists l1 l2, r1 = Ok l1 /\ r2 = Ok l2 /\ map skeleton_of l1 = map skeleton_of l2) \/
  (exists e1 e2, r1 = Raise e1 /\ r2 = Raise e2).
Proof.
  destruct r1 as [l1|e1], r2 as [l2|e2]; simpl; intros H;
    try discriminate; [left | right]; eauto.
  inversion H. eauto.
Qed.

Lemma outline_items_eq (r1 r2 : result (list BooleanRuleExpression * nat)) :
  outline_items r1 = outline_items r2 ->
  (exists l1 l2 n, r1 = Ok (l1, n) /\ r2 = Ok (l2, n) /\
                   map skeleton_of l1 = map skeleton_of l2) \/
  (exists e1 e2, r1 = Raise e1 /\ r2 = Raise e2).
Proof.
  destruct r1 as [[l1 n1]|e1], r2 as [[l2 n2]|e2]; simpl; intros H;
    try discriminate; [left | right]; eauto.
  inversion H. subst. eauto 10.
Qed.

Section parse_shape.
Variable recurse : value -> dict -> nat -> string -> result (list BooleanRuleExpression).
Variable prefix : string.

Let same_outline (v : value) : Prop :=
  forall parent parent' n pre,
    outline_list (recurse v parent n pre)
    = outline_list (recurse (erase v) parent' n pre).

Lemma parse_items_shape (items : dict) :
  Forall (fun kv => same_outline (snd kv)) items ->
  forall pattern pattern' pid,
    outline_items (Rule.parse_items recurse prefix pattern items pid)
    = outline_items (Rule.parse_items recurse prefix pattern'
                       (map erase_item items) pid).
Proof.
  induction 1 as [|[k v] items Hv _ IH]; intros pattern pattern' pid.
  - reflexivity.
  - simpl. destruct (startswith k "__"); [apply IH|].
    destruct (operator_for_pattern_name k) as [op|e]; [|reflexivity].
    simpl bind. destruct v as [| | |s|l|d]; try reflexivity.
    + simpl erase.
      destruct (outline_items_eq _ _ (IH pattern pattern' (S pid)))
        as [(l1 & l2 & n & -> & -> & E) | (e1 & e2 & -> & ->)];
        simpl; [rewrite E|]; reflexivity.
    + simpl in Hv.
      destruct (outline_list_eq _ _
                  (Hv pattern pattern' 0 (prefix ++ "." ++ str_of_nat pid)))
        as [(c1 & c2 & E1 & E2 & Ec) | (e1 & e2 & E1 & E2)].
      * simpl in E1, E2 |- *. rewrite E1, E2. simpl bind.
        destruct (outline_items_eq _ _ (IH pattern pattern' pid))
          as [(l1 & l2 & n & -> & -> & E) | (e1 & e2 & -> & ->)];
          simpl; [rewrite E, Ec|]; reflexivity.
      * simpl in E1, E2 |- *. rewrite E1, E2. reflexivity.
Qed.

Lemma parse_patterns_shape (patterns : list value) :
  inside_mappings same_outline patterns ->
  forall pid,
    outline_list (Rule.parse_patterns recurse prefix patterns pid)
    = outline_list (Rule.parse_patterns recurse prefix (map erase patterns) pid).
Proof.
  induction 1 as [|v patterns Hv _ IH]; intros pid.
  - reflexivity.
  - simpl. destruct v as [| | |s|l|d]; try reflexivity.
    simpl erase. fold erase_item.
    destruct (outline_items_eq _ _
                (parse_items_shape d Hv d (map erase_item d) pid))
      as [(l1 & l2 & n & E1 & E2 & E) | (e1 & e2 & E1 & E2)].
    + rewrite E1, E2. simpl bind.
      destruct (outline_list_eq _ _ (IH n))
        as [(r1 & r2 & -> & -> & Er) | (e1 & e2 & -> & ->)];
        simpl; [rewrite !map_app, E, Er|]; reflexivity.
    + rewrite E1, E2. reflexivity.
Qed.
End parse_shape.

(** A pattern list and its shape give the same operators, nesting and
    identifiers, or fail both. *)
Lemma parse_shape (v : value) :
  forall parent parent' n pre,
    outline_list (Rule._parse_boolean_expression v parent n pre)
    = outline_list (Rule._parse_boolean_expression (erase v) parent' n pre).
Proof.
  induction v as [v Hv | patterns IH] using value_pattern_ind;
    intros parent parent' n pre.
  - rewrite (parse_not_a_list _ _ _ _ Hv).
    rewrite parse_not_a_list; [reflexivity|].
    intros l E. destruct v; try discriminate. apply (Hv l0). reflexivity.
  - simpl. apply parse_patterns_shape. exact IH.
Qed.

Lemma dict_get_shape (rule_raw : dict) (k : string) :
  dict_get (shape rule_raw) k
  = option_map (fun v => if String.eqb k "id" then v else erase v)
               (dict_get rule_raw k).
Proof.
  induction rule_raw as [|[k' v] d IH]; simpl; [reflexivity|].
  destruct (String.eqb k' k) eqn:E; [|exact IH].
  apply String.eqb_eq in E. subst k'. reflexivity.
Qed.

Lemma py_get_shape (rule_raw : dict) (k : string) :
  String.eqb k "id" = false ->
  py_get (shape rule_raw) k VNone = erase (py_get rule_raw k VNone).
Proof.
  intros Hk. unfold py_get. rewrite dict_get_shape, Hk.
  destruct (dict_get rule_raw k); reflexivity.
Qed.

Lemma py_getitem_shape_id (rule_raw : dict) :
  py_getitem (shape rule_raw) "id" = py_getitem rule_raw "id".
Proof.
  unfold py_getitem. rewrite dict_get_shape.
  destruct (dict_get rule_raw "id"); reflexivity.
Qed.

Lemma single_loop_shape (family : Operator) (rule_raw : dict) (k : string) :
  String.eqb k "id" = false ->
  option_map outline
    (Rule.single_loop family rule_raw (Span_from_dict rule_raw None) [k])
  = option_map outline
      (Rule.single_loop family (shape rule_raw)
         (Span_from_dict (shape rule_raw) None) [k]).
Proof.
  intros Hk. simpl. rewrite (py_get_shape _ _ Hk), truthy_erase.
  destruct (truthy (py_get rule_raw k VNone)) eqn:Ht; [|reflexivity].
  destruct (truthy_present _ _ Ht) as (v & Hv & _ & _).
  rewrite py_getitem_shape_id.
  unfold py_getitem at 2 4. rewrite dict_get_shape, Hv, Hk. simpl.
  destruct (py_getitem rule_raw "id"); reflexivity.
Qed.

Lemma composite_loop_shape (family : Operator) (rule_raw : dict) (k : string) :
  String.eqb k "id" = false ->
  option_map outline
    (Rule.composite_loop family rule_raw (Span_from_dict rule_raw None) [k])
  = option_map outline
      (Rule.composite_loop family (shape rule_raw)
         (Span_from_dict (shape rule_raw) None) [k]).
Proof.
  intros Hk. simpl. rewrite (py_get_shape _ _ Hk), truthy_erase.
  destruct (truthy (py_get rule_raw k VNone)) eqn:Ht; [|reflexivity].
  simpl.
  destruct (outline_list_eq _ _
              (parse_shape (py_get rule_raw k VNone) rule_raw (shape rule_raw) 0 ""))
    as [(l1 & l2 & -> & -> & E) | (e1 & e2 & -> & ->)];
    simpl; [rewrite E|]; reflexivity.
Qed.

Lemma first_return_outline
    (loops loops' : list (option (result BooleanRuleExpression)))
    (otherwise otherwise' : result BooleanRuleExpression) :
  Forall2 (fun a b => option_map outline a = option_map outline b) loops loops' ->
  outline otherwise = outline otherwise' ->
  outline (Rule.first_return loops otherwise)
  = outline (Rule.first_return loops' otherwise').
Proof.
  intros H Ho. induction H as [|a b loops loops' Hab _ IH]; simpl; [exact Ho|].
  destruct a, b; simpl in Hab; try discriminate Hab.
  - injection Hab as Hab. exact Hab.
  - exact IH.
Qed.

(** A rule document and its shape compile to the same outline. *)
Lemma build_boolean_expression_shape (rule_raw : dict) :
  outline (Rule._build_boolean_expression rule_raw)
  = outline (Rule._build_boolean_expression (shape rule_raw)).
Proof.
  unfold Rule._build_boolean_expression.
  apply first_return_outline; [|reflexivity].
  constructor; [exact (single_loop_shape AND rule_raw "pattern" eq_refl)|].
  constructor; [exact (single_loop_shape REGEX rule_raw "pattern-regex" eq_refl)|].
  constructor; [exact (composite_loop_shape AND_ALL rule_raw "patterns" eq_refl)|].
  constructor; [exact (composite_loop_shape AND_EITHER rule_raw "pattern-either" eq_refl)|].
  constructor.
Qed.

Lemma init_run (raw : Rule.ref) (h : Rule.heap) :
  Rule.__init__ raw h
  = (expression <- Rule._build_boolean_expression (h raw) ;;
     globs <- Rule._build_globs (h raw) ;;
     Ok {| Rule._raw := raw; Rule._expression := expression; Rule._globs := globs |},
     h).
Proof.
  unfold Rule.__init__, Rule.mbind, Rule.reading, Rule.ret.
  destruct (Rule._build_boolean_expression (h raw)); simpl; [|reflexivity].
  destruct (Rule._build_globs (h raw)); reflexivity.
Qed.

(** C7: compiling a document a second time, in the heap the first
    compilation left, gives the same result as the first time; and the
    operators, the nesting and the identifiers of the tree are a function
    of the shape of the document: two documents that differ in their
    pattern texts only compile to the same outline. *)
Theorem C7_compilation_is_deterministic (raw : Rule.ref) (h : Rule.heap) :
  fst (Rule.__init__ raw (snd (Rule.__init__ raw h))) = fst (Rule.__init__ raw h) /\
  forall other : dict,
    shape other = shape (h raw) ->
    outline (Rule._build_boolean_expression other)
    = outline (Rule._build_boolean_expression (h raw)).
Proof.
  split.
  - rewrite !init_run. reflexivity.
  - intros other Hs.
    rewrite (build_boolean_expression_shape other), Hs.
    symmetry. apply build_boolean_expression_shape.
Qed.

Lemma C7_compilation_is_deterministic_witness :
  shape doc_two_either' = shape doc_two_either /\
  outline (Rule._build_boolean_expression doc_two_either')
  = outline (Rule._build_boolean_expression doc_two_either).
Proof.
  split; [reflexivity|].
  apply (C7_compilation_is_deterministic 0 (heap_of doc_two_either)).
  reflexivity.
Defined.

(** ** The document is read, never written *)

(** C9: the construction leaves the heap as it found it, whether it
    returns or raises; the rule it returns holds the very reference it was
    given, [to_json] and [raw] return that reference, and the document it
    points to is the one that was passed in. *)
Theorem C9_document_is_returned_unchanged (raw : Rule.ref) (h : Rule.heap) :
  snd (Rule.__init__ raw h) = h /\
  forall self,
    fst (Rule.__init__ raw h) = Ok self ->
    Rule.to_json self = raw /\
    Rule.raw self = raw /\
    snd (Rule.__init__ raw h) (Rule.to_json self) = h raw /\
    snd (Rule.__init__ raw h) (Rule.raw self) = h raw.
Proof.
  rewrite init_run. simpl. split; [reflexivity|].
  intros self H.
  bind_inv H. bind_inv Hk. inversion Hk0; subst self. simpl.
  repeat split; reflexivity.
Qed.

Lemma C9_document_is_returned_unchanged_witness :
  exists self,
    fst (Rule.__init__ 7 (heap_of doc_sarif)) = Ok self /\
    Rule.to_json self = 7 /\
    snd (Rule.__init__ 7 (heap_of doc_sarif)) (Rule.to_json self) = doc_sarif.
Proof.
  eexists. split; [reflexivity|].
  destruct (C9_document_is_returned_unchanged 7 (heap_of doc_sarif)) as [_ H].
  destruct (H _ eq_refl) as (H1 & _ & H2 & _).
  split; [exact H1 | exact H2].
Defined.

(** ** The required keys *)

Lemma py_get_without (keys : list string) (d : dict) (k : string) (default : value) :
  existsb (String.eqb k) keys = false ->
  py_get (without keys d) k default = py_get d k default.
Proof. intros H. unfold py_get. rewrite (dict_get_without _ _ _ H). reflexivity. Qed.

Lemma py_getitem_without (keys : list string) (d : dict) (k : string) :
  existsb (String.eqb k) keys = false ->
  py_getitem (without keys d) k = py_getitem d k.
Proof. intros H. unfold py_getitem. rewrite (dict_get_without _ _ _ H). reflexivity. Qed.

Lemma py_getitem_removed (keys : list string) (d : dict) (k : string) :
  existsb (String.eqb k) keys = true ->
  py_getitem (without keys d) k = Raise (KeyError k).
Proof.
  intros H. unfold py_getitem. rewrite (dict_get_without_removed _ _ _ H). reflexivity.
Qed.

(** The parent of a pattern list only serves the error of a value that is
    not a list. *)
Lemma parse_parent (v : value) (parent parent' : dict) (n : nat) (pre : string)
    (l : list BooleanRuleExpression) :
  Rule._parse_boolean_expression v parent n pre = Ok l ->
  Rule._parse_boolean_expression v parent' n pre = Ok l.
Proof. destruct v; try discriminate. intros H. exact H. Qed.

(** The tree of a document without its required keys: the tree of the
    document, the source span of the root apart. *)
Lemma build_boolean_expression_without (d : dict) (tree : BooleanRuleExpression) :
  Rule._build_boolean_expression d = Ok tree ->
  Rule._build_boolean_expression (without required_keys d)
  = Ok (mkExpression (operator tree) (pattern_id tree) (children tree) (operand tree)
          (Span_from_dict (without required_keys d) None)).
Proof.
  unfold Rule._build_boolean_expression. simpl.
  rewrite !(py_get_without required_keys d _ VNone) by reflexivity.
  rewrite !(py_getitem_without required_keys d) by reflexivity.
  destruct (truthy (py_get d "pattern" VNone)).
  { intros H. bind_inv H. bind_inv Hk. inversion Hk0; subst.
    rewrite Ha, Ha0. reflexivity. }
  destruct (truthy (py_get d "pattern-regex" VNone)).
  { intros H. bind_inv H. bind_inv Hk. inversion Hk0; subst.
    rewrite Ha, Ha0. reflexivity. }
  destruct (truthy (py_get d "patterns" VNone)).
  { intros H. bind_inv H. inversion Hk; subst.
    rewrite (parse_parent _ _ (without required_keys d) _ _ _ Ha). reflexivity. }
  destruct (truthy (py_get d "pattern-either" VNone)).
  { intros H. bind_inv H. inversion Hk; subst.
    rewrite (parse_parent _ _ (without required_keys d) _ _ _ Ha). reflexivity. }
  discriminate.
Qed.

Lemma build_globs_without (d : dict) :
  Rule._build_globs (without required_keys d) = Rule._build_globs d.
Proof.
  unfold Rule._build_globs.
  rewrite (py_get_without required_keys d "paths" (VDict [])) by reflexivity.
  reflexivity.
Qed.

(** C10 (as stated, refuted): the document [doc_bare_string] carries a
    truthy [patterns], has none of [message], [severity] and [languages],
    and its construction raises. *)
Lemma C10_counterexample :
  truthy (py_get doc_bare_string "patterns" VNone) = true /\
  dict_mem doc_bare_string "message" = false /\
  dict_mem doc_bare_string "severity" = false /\
  dict_mem doc_bare_string "languages" = false /\
  exists e, Rule.__init__ 0 (heap_of doc_bare_string)
            = (Raise (InvalidRuleSchema e), heap_of doc_bare_string).
Proof.
  repeat (split; [reflexivity|]). eexists. reflexivity.
Qed.

(** C10 (amended): the construction does not look at [message], [severity]
    and [languages]: when a document compiles, the same document without
    these keys compiles too, to the same tree (the source span of the root
    apart) and the same globs, and on the rule so obtained the accessors
    [message], [severity], [sarif_severity] and [languages] raise a
    [KeyError]. *)
Theorem C10_required_keys_are_not_checked
    (raw : Rule.ref) (h : Rule.heap) (self : Rule.t)
    (raw' : Rule.ref) (h' : Rule.heap) :
  fst (Rule.__init__ raw h) = Ok self ->
  h' raw' = without required_keys (h raw) ->
  exists self',
    Rule.__init__ raw' h' = (Ok self', h') /\
    operator (Rule.expression self') = operator (Rule.expression self) /\
    pattern_id (Rule.expression self') = pattern_id (Rule.expression self) /\
    children (Rule.expression self') = children (Rule.expression self) /\
    operand (Rule.expression self') = operand (Rule.expression self) /\
    Rule.globs self' = Rule.globs self /\
    Rule.message self' h' = Raise (KeyError "message") /\
    Rule.severity self' h' = Raise (KeyError "severity") /\
    Rule.sarif_severity self' h' = Raise (KeyError "severity") /\
    Rule.languages self' h' = Raise (KeyError "languages").
Proof.
  intros H Hh'. rewrite init_run in H. simpl in H.
  bind_inv H. bind_inv Hk. inversion Hk0; subst self. clear Hk0.
  rename a into tree, a0 into globs.
  eexists. split.
  - rewrite init_run, Hh'.
    rewrite (build_boolean_expression_without _ _ Ha), build_globs_without, Ha0.
    simpl. reflexivity.
  - unfold Rule.message, Rule.severity, Rule.sarif_severity, Rule.languages,
      Rule.severity.
    simpl. rewrite Hh'.
    rewrite !py_getitem_removed by reflexivity.
    simpl. repeat split; reflexivity.
Qed.

Lemma C10_required_keys_are_not_checked_witness :
  exists self',
    Rule.__init__ 1 (heap_of (without required_keys doc_sarif))
    = (Ok self', heap_of (without required_keys doc_sarif)) /\
    Rule.message self' (heap_of (without required_keys doc_sarif))
    = Raise (KeyError "message") /\
    Rule.languages self' (heap_of (without required_keys doc_sarif))
    = Raise (KeyError "languages").
Proof.
  destruct (C10_required_keys_are_not_checked
              0 (heap_of doc_sarif)
              {| Rule._raw := 0;
                 Rule._expression :=
                   mkExpression AND_ALL None
                     (Some [ mkExpression AND (Some (VStr ".0")) None (Some (VStr "a"))
                               (Span_from_dict [("pattern", VStr "a")] None);
                             mkExpression AND_NOT (Some (VStr ".1")) None (Some (VStr "b"))
                               (Span_from_dict [("pattern-not", VStr "b")] None) ])
                     None (Span_from_dict doc_sarif None);
                 Rule._globs := {| include := []; exclude := [] |} |}
              1 (heap_of (without required_keys doc_sarif))
              eq_refl eq_refl)
    as (self' & H1 & _ & _ & _ & _ & _ & H2 & _ & _ & H3).
  exists self'. split; [exact H1|]. split; [exact H2 | exact H3].
Defined.

(** ** The SARIF projection *)

(** [str] gives the name of a severity only for the string itself. *)
Lemma py_str_level (v : value) (s lvl : string) :
  In (s, lvl) spec_levels -> py_str v = s -> v = VStr s.
Proof.
  intros Hin E.
  assert (Hs : s = "INFO" \/ s = "WARNING" \/ s = "ERROR").
  { simpl in Hin. destruct Hin as [H|[H|[H|[]]]]; inversion H; auto. }
  destruct v as [|b|z|s'|l|d]; simpl in E.
  - subst s. destruct Hs as [H|[H|H]]; discriminate H.
  - destruct b; subst s; destruct Hs as [H|[H|H]]; discriminate H.
  - unfold str_of_Z in E.
    destruct (Z.to_int z) as [u|u]; simpl in E.
    + destruct u; simpl in E; subst s; destruct Hs as [H|[H|H]]; discriminate H.
    + subst s; destruct Hs as [H|[H|H]]; discriminate H.
  - subst s'. reflexivity.
  - subst s; destruct Hs as [H|[H|H]]; discriminate H.
  - subst s; destruct Hs as [H|[H|H]]; discriminate H.
Qed.

Lemma level_lookup (s lvl : string) :
  In (s, lvl) spec_levels ->
  py_getitem [("INFO", VStr "note"); ("ERROR", VStr "error"); ("WARNING", VStr "warning")] s
  = Ok (VStr lvl).
Proof.
  simpl. intros [H|[H|[H|[]]]]; inversion H; reflexivity.
Qed.

Lemma level_lookup_fails (s : string) :
  (forall lvl, ~ In (s, lvl) spec_levels) ->
  py_getitem [("INFO", VStr "note"); ("ERROR", VStr "error"); ("WARNING", VStr "warning")] s
  = Raise (KeyError s).
Proof.
  intros H. unfold py_getitem. cbn [dict_get].
  destruct (String.eqb_spec "INFO" s) as [E|_].
  { exfalso. apply (H "note"). subst s. simpl. auto. }
  destruct (String.eqb_spec "ERROR" s) as [E|_].
  { exfalso. apply (H "error"). subst s. simpl. auto. }
  destruct (String.eqb_spec "WARNING" s) as [E|_].
  { exfalso. apply (H "warning"). subst s. simpl. auto. }
  reflexivity.
Qed.

(** C8: for a rule whose document has a [severity], the level is read off
    the table INFO, WARNING, ERROR to note, warning, error, and any other
    severity makes [sarif_severity] and [to_sarif] raise; for a metadata
    mapping the tags are [cwe] exactly when it has a [cwe] key, [owasp]
    exactly when it has an [owasp] key, and no other; a rule with an [id]
    and a [message] projects to the descriptor with this level and these
    tags. *)
Theorem C8_sarif_projection (self : Rule.t) (h : Rule.heap) (v : value) :
  dict_get (h (Rule.raw self)) "severity" = Some v ->
  (forall s lvl, In (s, lvl) spec_levels -> v = VStr s ->
     Rule.sarif_severity self h = Ok lvl) /\
  ((forall s lvl, In (s, lvl) spec_levels -> v <> VStr s) ->
     Rule.sarif_severity self h = Raise (KeyError (py_str v)) /\
     exists e, Rule.to_sarif self h = Raise e) /\
  (forall md, Rule.metadata self h = VDict md ->
     Rule.sarif_tags self h = Ok (spec_tags md) /\
     (In (VStr "cwe") (spec_tags md) <-> dict_mem md "cwe" = true) /\
     (In (VStr "owasp") (spec_tags md) <-> dict_mem md "owasp" = true) /\
     (forall tag, In tag (spec_tags md) -> tag = VStr "cwe" \/ tag = VStr "owasp")) /\
  (forall rule_id message s lvl md,
     dict_get (h (Rule.raw self)) "id" = Some rule_id ->
     dict_get (h (Rule.raw self)) "message" = Some message ->
     In (s, lvl) spec_levels -> v = VStr s ->
     Rule.metadata self h = VDict md ->
     Rule.to_sarif self h
     = Ok (spec_descriptor (py_str rule_id) (py_str message) lvl (spec_tags md))).
Proof.
  intros Hsev.
  assert (Hlevel : forall s lvl, In (s, lvl) spec_levels -> v = VStr s ->
                     Rule.sarif_severity self h = Ok lvl).
  { intros s lvl Hin ->. unfold Rule.sarif_severity, Rule.severity.
    unfold Rule.raw in Hsev. rewrite (py_getitem_present _ _ _ Hsev). simpl bind.
    rewrite (level_lookup _ _ Hin). reflexivity. }
  assert (Hfail : (forall s lvl, In (s, lvl) spec_levels -> v <> VStr s) ->
                  Rule.sarif_severity self h = Raise (KeyError (py_str v))).
  { intros Hother. unfold Rule.sarif_severity, Rule.severity.
    unfold Rule.raw in Hsev. rewrite (py_getitem_present _ _ _ Hsev). simpl bind.
    rewrite level_lookup_fails; [reflexivity|].
    intros lvl Hin. apply (Hother _ _ Hin). eapply py_str_level; eauto. }
  assert (Htags : forall md, Rule.metadata self h = VDict md ->
                    Rule.sarif_tags self h = Ok (spec_tags md)).
  { intros md Hmd. unfold Rule.sarif_tags. rewrite Hmd. reflexivity. }
  split; [exact Hlevel|]. split; [|split].
  - intros Hother. split; [apply Hfail; exact Hother|].
    unfold Rule.to_sarif.
    destruct (Rule.id self h) as [i|e]; [|eexists; reflexivity]. simpl bind.
    destruct (Rule.message self h) as [m|e]; [|eexists; reflexivity]. simpl bind.
    rewrite (Hfail Hother). eexists. reflexivity.
  - intros md Hmd. split; [apply Htags; exact Hmd|].
    unfold spec_tags.
    destruct (dict_mem md "cwe"), (dict_mem md "owasp"); simpl;
      repeat split; try tauto; try discriminate;
      intros; repeat match goal with
                     | H : _ \/ _ |- _ => destruct H
                     | H : False |- _ => destruct H
                     | H : _ = _ |- _ => discriminate H
                     end; auto.
  - intros rule_id message s lvl md Hid Hmsg Hin Hv Hmd.
    unfold Rule.to_sarif, Rule.id, Rule.message.
    unfold Rule.raw in Hid, Hmsg.
    rewrite (py_getitem_present _ _ _ Hid), (py_getitem_present _ _ _ Hmsg).
    simpl bind. rewrite (Hlevel _ _ Hin Hv). simpl bind.
    rewrite (Htags _ Hmd). reflexivity.
Qed.

Lemma C8_sarif_projection_witness :
  exists self,
    Rule.__init__ 0 (heap_of doc_sarif) = (Ok self, heap_of doc_sarif) /\
    Rule.sarif_severity self (heap_of doc_sarif) = Ok "warning" /\
    Rule.sarif_tags self (heap_of doc_sarif) = Ok [VStr "cwe"] /\
    Rule.to_sarif self (heap_of doc_sarif)
    = Ok (spec_descriptor "r" "m" "warning" [VStr "cwe"]).
Proof.
  eexists. split; [reflexivity|].
  match goal with
  | |- Rule.sarif_severity ?self _ = _ /\ _ =>
      destruct (C8_sarif_projection self (heap_of doc_sarif) (VStr "WARNING") eq_refl)
        as (H1 & _ & H3 & H4)
  end.
  split; [apply (H1 "WARNING" "warning"); [simpl; auto | reflexivity]|].
  split; [apply (H3 [("cwe", VStr "CWE-89")]); reflexivity|].
  apply (H4 (VStr "r") (VStr "m") "WARNING" "warning" [("cwe", VStr "CWE-89")]);
    try reflexivity.
  simpl; auto.
Defined.

(** * Further properties of the compiler *)

(** ** When compilation succeeds *)

Lemma succeeds_bind {A B : Type} (m : result A) (k : A -> result B) :
  succeeds (bind m k) = match m with Ok a => succeeds (k a) | Raise _ => false end.
Proof. destruct m; reflexivity. Qed.

Section parse_succeeds.
Variable recurse : value -> dict -> nat -> string -> result (list BooleanRuleExpression).
Variable inner : value -> bool.
Variable prefix : string.

Let agrees (v : value) : Prop :=
  forall parent n pre, succeeds (recurse v parent n pre) = inner v.

Lemma parse_items_succeeds (items : dict) :
  Forall (fun kv => agrees (snd kv)) items ->
  forall pattern pid,
    succeeds (Rule.parse_items recurse prefix pattern items pid)
    = forallb (item_ok inner) items.
Proof.
  induction 1 as [|[k v] items Hv _ IH]; intros pattern pid; [reflexivity|].
  simpl. unfold item_ok at 1. simpl fst. simpl snd.
  destruct (startswith k "__"); [apply IH|]. simpl orb.
  destruct (operator_for_pattern_name k) as [op|e]; [|reflexivity].
  simpl. destruct v as [| | |s|l|d]; try reflexivity.
  - rewrite succeeds_bind. rewrite <- (IH pattern (S pid)).
    destruct (Rule.parse_items recurse prefix pattern items (S pid)) as [[later m]|e];
      reflexivity.
  - simpl in Hv. rewrite succeeds_bind.
    rewrite <- (Hv pattern 0 (prefix ++ String "." (str_of_nat pid))).
    destruct (recurse (VList l) pattern 0 (prefix ++ String "." (str_of_nat pid)));
      [|reflexivity].
    simpl andb. rewrite succeeds_bind. rewrite <- (IH pattern pid).
    destruct (Rule.parse_items recurse prefix pattern items pid) as [[later m]|e];
      reflexivity.
Qed.

Lemma parse_patterns_succeeds (patterns : list value) :
  inside_mappings agrees patterns ->
  forall pid,
    succeeds (Rule.parse_patterns recurse prefix patterns pid)
    = forallb (mapping_ok inner) patterns.
Proof.
  induction 1 as [|v patterns Hv _ IH]; intros pid; [reflexivity|].
  simpl. destruct v as [| | |s|l|d]; try reflexivity.
  simpl mapping_ok. rewrite succeeds_bind.
  rewrite <- (parse_items_succeeds d Hv d pid).
  destruct (Rule.parse_items recurse prefix d d pid) as [[yielded m]|e];
    [|reflexivity].
  simpl andb. rewrite succeeds_bind. rewrite <- (IH m).
  destruct (Rule.parse_patterns recurse prefix patterns m); reflexivity.
Qed.
End parse_succeeds.

Lemma parse_succeeds (v : value) (parent : dict) (n : nat) (pre : string) :
  succeeds (Rule._parse_boolean_expression v parent n pre) = patterns_ok v.
Proof.
  revert parent n pre.
  induction v as [v Hv | patterns IH] using value_pattern_ind; intros parent n pre.
  - rewrite (parse_not_a_list _ _ _ _ Hv).
    destruct v; try reflexivity. exfalso. apply (Hv l). reflexivity.
  - simpl. apply parse_patterns_succeeds. exact IH.
Qed.

(** X1: the expression builder returns exactly on the accepted pattern
    lists, whatever the parent, the counter and the prefix it starts from:
    a list of mappings whose keys, annotations apart, name operators and
    hold strings or accepted lists.  Anything else makes it raise. *)
Theorem X1_parse_succeeds_iff_accepted (v : value) (parent : dict) (n : nat) (pre : string) :
  succeeds (Rule._parse_boolean_expression v parent n pre) = patterns_ok v.
Proof. exact (parse_succeeds v parent n pre). Qed.

Lemma succeeds_getitem (d : dict) (k : string) :
  succeeds (py_getitem d k) = dict_mem d k.
Proof. unfold py_getitem, dict_mem. destruct (dict_get d k); reflexivity. Qed.

Lemma build_succeeds (rule_raw : dict) :
  succeeds (Rule._build_boolean_expression rule_raw) = expression_ok rule_raw.
Proof.
  unfold Rule._build_boolean_expression, expression_ok. simpl.
  destruct (truthy (py_get rule_raw "pattern" VNone)) eqn:E1.
  { destruct (truthy_present _ _ E1) as (v & Hv & _ & _).
    rewrite (py_getitem_present _ _ _ Hv).
    rewrite succeeds_bind, <- succeeds_getitem.
    destruct (py_getitem rule_raw "id"); reflexivity. }
  destruct (truthy (py_get rule_raw "pattern-regex" VNone)) eqn:E2.
  { destruct (truthy_present _ _ E2) as (v & Hv & _ & _).
    rewrite (py_getitem_present _ _ _ Hv).
    rewrite succeeds_bind, <- succeeds_getitem.
    destruct (py_getitem rule_raw "id"); reflexivity. }
  destruct (truthy (py_get rule_raw "patterns" VNone)).
  { rewrite succeeds_bind, <- (parse_succeeds _ rule_raw 0 "").
    destruct (Rule._parse_boolean_expression _ _ _ _); reflexivity. }
  destruct (truthy (py_get rule_raw "pattern-either" VNone)).
  { rewrite succeeds_bind, <- (parse_succeeds _ rule_raw 0 "").
    destruct (Rule._parse_boolean_expression _ _ _ _); reflexivity. }
  reflexivity.
Qed.

(** X2: the top-level dispatch returns a tree exactly when the first truthy
    family is a single pattern in a rule that has an [id], or a composite
    one over an accepted pattern list. *)
Theorem X2_build_succeeds_iff_accepted (rule_raw : dict) :
  succeeds (Rule._build_boolean_expression rule_raw) = expression_ok rule_raw.
Proof. exact (build_succeeds rule_raw). Qed.

Lemma add_values_succeeds (values : list value) :
  forall glob_set, succeeds (Rule.add_values glob_set values) = forallb hashable values.
Proof.
  induction values as [|v values IH]; intros glob_set; [reflexivity|].
  simpl. unfold set_add.
  destruct (hashable v); [|reflexivity].
  destruct (existsb (py_eq_scalar v) glob_set); simpl; apply IH.
Qed.

Lemma globs_loop_succeeds (items : dict) :
  forall globs, succeeds (Rule.globs_loop items globs) = forallb glob_rule_ok items.
Proof.
  induction items as [|[k rule] items IH]; intros globs; [reflexivity|].
  cbn [Rule.globs_loop forallb]. unfold glob_rule_ok at 1. cbn [fst snd].
  destruct (startswith k "__"); [apply IH|]. cbn [orb].
  destruct (existsb (String.eqb k) ALLOWED_GLOB_TYPES); [|reflexivity].
  cbn [negb andb].
  assert (H : forall values set_of rebuild,
             succeeds (glob_set <- Rule.add_values (set_of globs) values ;;
                       Rule.globs_loop items (rebuild glob_set))
             = forallb hashable values && forallb glob_rule_ok items).
  { intros values set_of rebuild. rewrite succeeds_bind.
    rewrite <- (add_values_succeeds values (set_of globs)).
    destruct (Rule.add_values (set_of globs) values); [apply IH | reflexivity]. }
  assert (Hk : forall d : dict, forallb hashable (map (fun kv => VStr (fst kv)) d) = true).
  { clear. induction d; simpl; auto. }
  destruct rule as [| | |s|l|d]; try reflexivity;
    cbn [bind py_iter]; destruct (String.eqb k "exclude");
    first
      [ rewrite (H _ exclude (fun g => {| include := include globs; exclude := g |}))
      | rewrite (H _ include (fun g => {| include := g; exclude := exclude globs |})) ];
    rewrite ?Hk; reflexivity.
Qed.

Lemma build_globs_succeeds (rule_raw : dict) :
  succeeds (Rule._build_globs rule_raw) = paths_ok rule_raw.
Proof.
  unfold Rule._build_globs, paths_ok.
  destruct (py_get rule_raw "paths" (VDict [])); try reflexivity.
  apply globs_loop_succeeds.
Qed.

(** X3: the glob builder returns exactly when [paths] is absent or a
    mapping whose keys, annotations apart, are [include] or [exclude] and
    hold a string, a mapping, or a list without lists and mappings in it;
    it raises on a number, a boolean or [None] under an allowed key. *)
Theorem X3_build_globs_succeeds_iff_accepted (rule_raw : dict) :
  succeeds (Rule._build_globs rule_raw) = paths_ok rule_raw.
Proof. exact (build_globs_succeeds rule_raw). Qed.

(** X4: a rule is constructed exactly when its document is accepted by the
    top-level dispatch and by the glob builder; [message], [severity],
    [languages] and [metadata] play no part. *)
Theorem X4_init_succeeds_iff_accepted (raw : Rule.ref) (h : Rule.heap) :
  succeeds (fst (Rule.__init__ raw h)) = expression_ok (h raw) && paths_ok (h raw).
Proof.
  rewrite init_run. simpl fst.
  rewrite succeeds_bind, <- build_succeeds.
  destruct (Rule._build_boolean_expression (h raw)); [|reflexivity].
  simpl andb. rewrite succeeds_bind, <- build_globs_succeeds.
  destruct (Rule._build_globs (h raw)); reflexivity.
Qed.

(** ** One node per entry, in document order *)

Lemma node_of_entry_app (n1 n2 : list BooleanRuleExpression) (l1 l2 : list (string * value)) :
  node_of_entry n1 l1 -> node_of_entry n2 l2 -> node_of_entry (n1 ++ n2) (l1 ++ l2).
Proof.
  unfold node_of_entry. intros (A1 & B1 & C1) (A2 & B2 & C2).
  rewrite !map_app. rewrite A1, A2, B1, B2, C1, C2. auto.
Qed.

Lemma parse_items_entries
    (recurse : value -> dict -> nat -> string -> result (list BooleanRuleExpression))
    (prefix : string) (pattern : dict) (items : dict) :
  forall pid yielded n,
    Rule.parse_items recurse prefix pattern items pid = Ok (yielded, n) ->
    node_of_entry yielded (filter (fun kv => negb (startswith (fst kv) "__")) items).
Proof.
  induction items as [|[k v] items IH]; intros pid yielded n H.
  - simpl in H. inversion H. repeat split.
  - simpl in H. simpl filter. destruct (startswith k "__") eqn:Ek; simpl negb; cbv iota.
    + eapply IH; eauto.
    + bind_inv H. destruct v; try discriminate.
      * bind_inv Hk. destruct a0 as [later m]. inversion Hk0; subst.
        destruct (IH _ _ _ Ha0) as (A & B & C).
        unfold node_of_entry. simpl. rewrite Ha, A, B, C. auto.
      * bind_inv Hk. bind_inv Hk0. destruct a1 as [later m]. inversion Hk; subst.
        destruct (IH _ _ _ Ha1) as (A & B & C).
        unfold node_of_entry. simpl. rewrite Ha, A, B, C. auto.
Qed.

Lemma parse_entries (patterns : list value) (parent : dict) (n : nat)
    (pre : string) (nodes : list BooleanRuleExpression) :
  Rule._parse_boolean_expression (VList patterns) parent n pre = Ok nodes ->
  map (fun e => Ok (operator e)) nodes
  = map (fun kv => operator_for_pattern_name (fst kv)) (entries patterns) /\
  map operand nodes = map entry_text (entries patterns) /\
  map children_present nodes = map entry_is_list (entries patterns).
Proof.
  simpl. revert n nodes.
  induction patterns as [|v patterns IH]; intros n nodes H.
  - simpl in H. inversion H. repeat split.
  - simpl in H. destruct v; try discriminate.
    bind_inv H. destruct a as [yielded m]. bind_inv Hk. inversion Hk0; subst.
    apply (node_of_entry_app yielded a).
    + eapply parse_items_entries; eauto.
    + apply (IH _ _ Ha0).
Qed.

(** X5: a parsed pattern list has one node per entry of its mappings,
    annotations apart, in document order: a mapping with two keys gives two
    sibling nodes.  Each node has the operator of its key; it has the
    entry's string as pattern text, or a [children] field when the entry
    holds a list. *)
Theorem X5_parse_one_node_per_entry (patterns : list value) (parent : dict) (n : nat)
    (pre : string) (nodes : list BooleanRuleExpression) :
  Rule._parse_boolean_expression (VList patterns) parent n pre = Ok nodes ->
  map (fun e => Ok (operator e)) nodes
  = map (fun kv => operator_for_pattern_name (fst kv)) (entries patterns) /\
  map operand nodes = map entry_text (entries patterns) /\
  map children_present nodes = map entry_is_list (entries patterns).
Proof. exact (parse_entries patterns parent n pre nodes). Qed.

Lemma X5_parse_one_node_per_entry_witness :
  exists nodes,
    Rule._parse_boolean_expression
      (VList [ VDict [ ("__line__", VInt 3);
                       ("pattern", VStr "a");
                       ("pattern-not", VStr "b") ];
               VDict [ ("pattern-either", VList []) ] ])
      [] 0 "" = Ok nodes /\
    map operand nodes = [Some (VStr "a"); Some (VStr "b"); None] /\
    map children_present nodes = [false; false; true].
Proof.
  eexists. split; [reflexivity|].
  destruct (X5_parse_one_node_per_entry
              [ VDict [ ("__line__", VInt 3);
                        ("pattern", VStr "a");
                        ("pattern-not", VStr "b") ];
                VDict [ ("pattern-either", VList []) ] ]
              [] 0 "" _ eq_refl) as (_ & H2 & H3).
  split; [exact H2 | exact H3].
Defined.

(** ** Sibling leaves are numbered in a row *)

Lemma sibling_ids_app (prefix : string) (n a b : nat) :
  sibling_ids prefix n (a + b)
  = (sibling_ids prefix n a ++ sibling_ids prefix (n + a) b)%list.
Proof. unfold sibling_ids. rewrite seq_app, map_app. reflexivity. Qed.

Lemma parse_items_numbered
    (recurse : value -> dict -> nat -> string -> result (list BooleanRuleExpression))
    (prefix : string) (pattern : dict) (items : dict) :
  forall pid yielded n,
    Rule.parse_items recurse prefix pattern items pid = Ok (yielded, n) ->
    n = pid + List.length (filter is_leaf yielded) /\ numbered prefix pid yielded.
Proof.
  induction items as [|[k v] items IH]; intros pid yielded n H.
  - simpl in H. inversion H. simpl. split; [lia|]. split; [reflexivity|constructor].
  - simpl in H. destruct (startswith k "__").
    + eapply IH; eauto.
    + bind_inv H. destruct v; try discriminate.
      * bind_inv Hk. destruct a0 as [later m]. inversion Hk0; subst.
        destruct (IH _ _ _ Ha0) as (Hn & Hids & Hc).
        unfold numbered.
        change (filter is_leaf (?e :: later)) with (e :: filter is_leaf later).
        cbn [List.length map pattern_id].
        split; [lia|]. split.
        -- change (S (List.length (filter is_leaf later)))
             with (1 + List.length (filter is_leaf later)).
           rewrite sibling_ids_app. cbn [sibling_ids seq map app]. f_equal.
           rewrite Hids. unfold sibling_ids. f_equal. f_equal. lia.
        -- constructor; [discriminate|exact Hc].
      * bind_inv Hk. bind_inv Hk0. destruct a1 as [later m]. inversion Hk; subst.
        destruct (IH _ _ _ Ha1) as (Hn & Hids & Hc).
        unfold numbered.
        change (filter is_leaf (?e :: later)) with (filter is_leaf later).
        split; [exact Hn|]. split; [exact Hids|].
        constructor; [reflexivity|exact Hc].
Qed.

Lemma parse_numbered (patterns : list value) (parent : dict) (n : nat)
    (pre : string) (nodes : list BooleanRuleExpression) :
  Rule._parse_boolean_expression (VList patterns) parent n pre = Ok nodes ->
  map pattern_id (filter is_leaf nodes)
  = sibling_ids pre n (List.length (filter is_leaf nodes)) /\
  Forall (fun e => is_leaf e = false -> pattern_id e = None) nodes.
Proof.
  simpl. revert n nodes.
  induction patterns as [|v patterns IH]; intros n nodes H.
  - simpl in H. inversion H. split; [reflexivity|constructor].
  - simpl in H. destruct v; try discriminate.
    bind_inv H. destruct a as [yielded m]. bind_inv Hk. inversion Hk0; subst.
    destruct (parse_items_numbered _ _ _ _ _ _ _ Ha) as (Hm & Hids & Hc).
    destruct (IH _ _ Ha0) as (Hids' & Hc').
    split.
    + rewrite filter_app, map_app, List.length_app, sibling_ids_app.
      rewrite Hids, Hids', Hm. reflexivity.
    + apply Forall_app. split; assumption.
Qed.

(** X6: among the nodes of one parsed pattern list, the leaves carry the
    identifiers [prefix.n], [prefix.(n+1)], ... in document order, where [n]
    is the counter the list started with (zero for every list of a rule);
    the nodes with children carry no identifier and do not advance the
    counter. *)
Theorem X6_parse_numbers_sibling_leaves (patterns : list value) (parent : dict) (n : nat)
    (pre : string) (nodes : list BooleanRuleExpression) :
  Rule._parse_boolean_expression (VList patterns) parent n pre = Ok nodes ->
  map pattern_id (filter is_leaf nodes)
  = sibling_ids pre n (List.length (filter is_leaf nodes)) /\
  Forall (fun e => is_leaf e = false -> pattern_id e = None) nodes.
Proof. exact (parse_numbered patterns parent n pre nodes). Qed.

Lemma X6_parse_numbers_sibling_leaves_witness :
  exists nodes,
    Rule._parse_boolean_expression
      (VList [ VDict [("pattern", VStr "a")];
               VDict [("pattern-either", VList [VDict [("pattern", VStr "b")]])];
               VDict [("pattern-not", VStr "c")] ])
      [] 0 "" = Ok nodes /\
    map pattern_id (filter is_leaf nodes) = [Some (VStr ".0"); Some (VStr ".1")].
Proof.
  eexists. split; [reflexivity|].
  exact (proj1 (X6_parse_numbers_sibling_leaves
                  [ VDict [("pattern", VStr "a")];
                    VDict [("pattern-either", VList [VDict [("pattern", VStr "b")]])];
                    VDict [("pattern-not", VStr "c")] ]
                  [] 0 "" _ eq_refl)).
Defined.

(** ** Identifiers of a list without nested lists *)

Lemma to_uint_nonnil (n : nat) : Nat.to_uint n <> Decimal.Nil.
Proof.
  rewrite <- (DecimalNat.Unsigned.of_to n) at 1.
  rewrite DecimalNat.Unsigned.to_of. apply DecimalFacts.unorm_nonnil.
Qed.

Lemma str_of_nat_inj (a b : nat) : str_of_nat a = str_of_nat b -> a = b.
Proof.
  unfold str_of_nat. intros H.
  apply DecimalNat.Unsigned.to_uint_inj.
  assert (E : Some (Nat.to_uint a) = Some (Nat.to_uint b)).
  { rewrite <- (NilZero.usu _ (to_uint_nonnil a)).
    rewrite <- (NilZero.usu _ (to_uint_nonnil b)).
    rewrite H. reflexivity. }
  inversion E. reflexivity.
Qed.

Lemma append_inj (p a b : string) : p ++ a = p ++ b -> a = b.
Proof.
  induction p as [|c p IH]; simpl; intros H; [exact H|].
  inversion H. auto.
Qed.

Lemma sibling_ids_NoDup (prefix : string) (n count : nat) :
  NoDup (sibling_ids prefix n count).
Proof.
  unfold sibling_ids. apply Finite.Injective_map_NoDup; [|apply seq_NoDup].
  intros a b H. inversion H as [E].
  apply append_inj in E. inversion E as [E'].
  apply str_of_nat_inj. exact E'.
Qed.

Lemma filter_all {A : Type} (f : A -> bool) (l : list A) :
  Forall (fun x => f x = true) l -> filter f l = l.
Proof.
  induction 1 as [|x l Hx _ IH]; simpl; [reflexivity|].
  rewrite Hx, IH. reflexivity.
Qed.

(** X7: when no entry of a pattern list holds a nested list, every node of
    the parsed list is a leaf and no two of them carry the same
    identifier. *)
Theorem X7_flat_list_ids_distinct (patterns : list value) (parent : dict) (n : nat)
    (pre : string) (nodes : list BooleanRuleExpression) :
  Rule._parse_boolean_expression (VList patterns) parent n pre = Ok nodes ->
  forallb (fun kv => negb (entry_is_list kv)) (entries patterns) = true ->
  flat_map leaves nodes = nodes /\
  NoDup (map pattern_id nodes).
Proof.
  intros H Hflat.
  destruct (parse_entries _ _ _ _ _ H) as (_ & _ & Hc).
  destruct (parse_numbered _ _ _ _ _ H) as (Hids & _).
  assert (Hleaf : Forall (fun e => is_leaf e = true) nodes).
  { clear - Hc Hflat. revert Hc Hflat. generalize (entries patterns) as l.
    induction nodes as [|e nodes IH]; intros l Hc Hflat; [constructor|].
    destruct l as [|kv l]; [discriminate|].
    simpl in Hc, Hflat. inversion Hc as [[He Hrest]].
    apply andb_prop in Hflat. destruct Hflat as [Hkv Hl].
    constructor; [|apply (IH l); assumption].
    unfold is_leaf. rewrite He. exact Hkv. }
  split.
  - clear - Hleaf. induction Hleaf as [|e nodes He _ IH]; [reflexivity|].
    simpl. rewrite IH.
    destruct e as [o i [c|] t s]; [discriminate He | reflexivity].
  - rewrite (filter_all _ _ Hleaf) in Hids. rewrite Hids.
    apply sibling_ids_NoDup.
Qed.

Lemma X7_flat_list_ids_distinct_witness :
  exists nodes,
    Rule._parse_boolean_expression
      (VList [ VDict [("pattern", VStr "a")];
               VDict [("pattern-not", VStr "b"); ("pattern-inside", VStr "c")] ])
      [] 0 "" = Ok nodes /\
    NoDup (map pattern_id nodes).
Proof.
  eexists. split; [reflexivity|].
  exact (proj2 (X7_flat_list_ids_distinct
                  [ VDict [("pattern", VStr "a")];
                    VDict [("pattern-not", VStr "b"); ("pattern-inside", VStr "c")] ]
                  [] 0 "" _ eq_refl eq_refl)).
Defined.

(** ** Identifiers extend the prefix *)

Lemma append_assoc (a b c : string) : (a ++ b) ++ c = a ++ b ++ c.
Proof. induction a as [|x a IH]; simpl; [reflexivity|]. rewrite IH. reflexivity. Qed.

Lemma below_deeper (prefix k : string) (i : option value) :
  below (prefix ++ "." ++ k) i -> below prefix i.
Proof.
  intros [rest ->]. exists (k ++ "." ++ rest).
  rewrite !append_assoc. reflexivity.
Qed.

Section parse_below.
Variable recurse : value -> dict -> nat -> string -> result (list BooleanRuleExpression).
Variable prefix : string.

Let deep (v : value) : Prop :=
  forall parent n pre l,
    recurse v parent n pre = Ok l -> Forall (below pre) (flat_map leaf_ids l).

Lemma parse_items_below (items : dict) :
  Forall (fun kv => deep (snd kv)) items ->
  forall pattern pid yielded n,
    Rule.parse_items recurse prefix pattern items pid = Ok (yielded, n) ->
    Forall (below prefix) (flat_map leaf_ids yielded).
Proof.
  induction 1 as [|[k v] items Hv _ IH]; intros pattern pid yielded n H.
  - simpl in H. inversion H. constructor.
  - simpl in H. destruct (startswith k "__"); [eapply IH; eauto|].
    bind_inv H. destruct v; try discriminate.
    + bind_inv Hk. destruct a0 as [later m]. inversion Hk0; subst.
      simpl. constructor; [|eapply IH; eauto].
      exists (str_of_nat pid). reflexivity.
    + bind_inv Hk. bind_inv Hk0. destruct a1 as [later m]. inversion Hk; subst.
      simpl flat_map. apply Forall_app. split; [|eapply IH; eauto].
      simpl in Hv. pose proof (Hv _ _ _ _ Ha0) as Hd.
      unfold leaf_ids. simpl leaves.
      assert (E : map pattern_id (flat_map leaves a0) = flat_map leaf_ids a0).
      { clear. induction a0 as [|e a0 IHa]; [reflexivity|].
        simpl. rewrite map_app, IHa. reflexivity. }
      rewrite E. eapply Forall_impl; [|exact Hd].
      intros i Hi. apply (below_deeper prefix (str_of_nat pid)). exact Hi.
Qed.

Lemma parse_patterns_below (patterns : list value) :
  inside_mappings deep patterns ->
  forall pid l,
    Rule.parse_patterns recurse prefix patterns pid = Ok l ->
    Forall (below prefix) (flat_map leaf_ids l).
Proof.
  induction 1 as [|v patterns Hv _ IH]; intros pid l H.
  - simpl in H. inversion H. constructor.
  - simpl in H. destruct v; try discriminate.
    bind_inv H. destruct a as [yielded m]. bind_inv Hk. inversion Hk0; subst.
    rewrite flat_map_app. apply Forall_app. split.
    + eapply parse_items_below; eauto.
    + eapply IH; eauto.
Qed.
End parse_below.

Lemma parse_below (v : value) (parent : dict) (n : nat) (pre : string)
    (l : list BooleanRuleExpression) :
  Rule._parse_boolean_expression v parent n pre = Ok l ->
  Forall (fun i => exists rest, i = Some (VStr (pre ++ "." ++ rest)))
         (flat_map leaf_ids l).
Proof.
  revert parent n pre l.
  induction v as [v Hv | patterns IH] using value_pattern_ind; intros parent n pre l H.
  - rewrite (parse_not_a_list _ _ _ _ Hv) in H. discriminate.
  - simpl in H. eapply parse_patterns_below; eauto.
Qed.

(** X8: every leaf below a parsed pattern list, at any depth, carries an
    identifier that is a string made of the prefix of the list, a dot, and
    more: the identifiers of a nested list extend the identifier its parent
    list had reached. *)
Theorem X8_leaf_ids_extend_prefix (v : value) (parent : dict) (n : nat) (pre : string)
    (l : list BooleanRuleExpression) :
  Rule._parse_boolean_expression v parent n pre = Ok l ->
  Forall (fun i => exists rest, i = Some (VStr (pre ++ "." ++ rest)))
         (flat_map leaf_ids l).
Proof. exact (parse_below v parent n pre l). Qed.

Lemma X8_leaf_ids_extend_prefix_witness :
  Forall (fun i => exists rest, i = Some (VStr ("" ++ "." ++ rest)))
         [Some (VStr ".0.0"); Some (VStr ".0")].
Proof.
  exact (X8_leaf_ids_extend_prefix
           (VList [ VDict [("pattern-either", VList [VDict [("pattern", VStr "b")]])];
                    VDict [("pattern-not", VStr "c")] ])
           [] 0 "" _ eq_refl).
Defined.

(** ** Annotations are skipped *)

Section parse_annotations.
Variable recurse : value -> dict -> nat -> string -> result (list BooleanRuleExpression).
Variable inner : value -> value.
Variable prefix : string.
Hypothesis inner_list : forall l, exists l', inner (VList l) = VList l'.

Let same (v : value) : Prop :=
  forall parent parent' n pre,
    outline_list (recurse v parent n pre)
    = outline_list (recurse (inner v) parent' n pre).

Lemma parse_items_annotations (items : dict) :
  Forall (fun kv => same (snd kv)) items ->
  forall pattern pattern' pid,
    outline_items (Rule.parse_items recurse prefix pattern items pid)
    = outline_items (Rule.parse_items recurse prefix pattern'
                       (flat_map (drop_annotations_item inner) items) pid).
Proof.
  induction 1 as [|[k v] items Hv _ IH]; intros pattern pattern' pid; [reflexivity|].
  cbn [flat_map]. unfold drop_annotations_item at 1. cbn [fst snd].
  cbn [Rule.parse_items].
  destruct (startswith k "__") eqn:Ek; [apply IH|].
  cbn [app Rule.parse_items]. rewrite Ek.
  destruct (operator_for_pattern_name k) as [op|e]; [|reflexivity].
  cbn [bind]. destruct v as [| | |s|l|d]; try reflexivity.
  - destruct (outline_items_eq _ _ (IH pattern pattern' (S pid)))
      as [(l1 & l2 & n & -> & -> & E) | (e1 & e2 & -> & ->)];
      simpl; [rewrite E|]; reflexivity.
  - cbn [snd] in Hv. destruct (inner_list l) as [l' El].
    pose proof (Hv pattern pattern' 0 (prefix ++ "." ++ str_of_nat pid)) as Hr.
    rewrite El in Hr |- *.
    destruct (outline_list_eq _ _ Hr)
      as [(c1 & c2 & E1 & E2 & Ec) | (e1 & e2 & E1 & E2)];
      rewrite E1, E2; [|reflexivity].
    cbn [bind].
    destruct (outline_items_eq _ _ (IH pattern pattern' pid))
      as [(l1 & l2 & n & -> & -> & E) | (e1 & e2 & -> & ->)];
      simpl; [rewrite E, Ec|]; reflexivity.
Qed.

Lemma parse_patterns_annotations (patterns : list value) :
  inside_mappings same patterns ->
  forall pid,
    outline_list (Rule.parse_patterns recurse prefix patterns pid)
    = outline_list (Rule.parse_patterns recurse prefix
                      (map (drop_annotations_mapping inner) patterns) pid).
Proof.
  induction 1 as [|v patterns Hv _ IH]; intros pid; [reflexivity|].
  cbn [map Rule.parse_patterns]. destruct v as [| | |s|l|d]; try reflexivity.
  cbn [drop_annotations_mapping].
  destruct (outline_items_eq _ _
              (parse_items_annotations d Hv d
                 (flat_map (drop_annotations_item inner) d) pid))
    as [(l1 & l2 & n & E1 & E2 & E) | (e1 & e2 & E1 & E2)];
    rewrite E1, E2; [|reflexivity].
  cbn [bind].
  destruct (outline_list_eq _ _ (IH n))
    as [(r1 & r2 & -> & -> & Er) | (e1 & e2 & -> & ->)];
    simpl; [rewrite !map_app, E, Er|]; reflexivity.
Qed.
End parse_annotations.

Lemma parse_annotations (v : value) :
  forall parent parent' n pre,
    outline_list (Rule._parse_boolean_expression v parent n pre)
    = outline_list (Rule._parse_boolean_expression (drop_annotations v) parent' n pre).
Proof.
  induction v as [v Hv | patterns IH] using value_pattern_ind;
    intros parent parent' n pre.
  - destruct v; try reflexivity. exfalso. apply (Hv l). reflexivity.
  - cbn [drop_annotations Rule._parse_boolean_expression].
    apply parse_patterns_annotations; [|exact IH].
    intros l. eexists. reflexivity.
Qed.

Lemma pattern_strings_annotations (v : value) :
  pattern_strings (drop_annotations v) = pattern_strings v.
Proof.
  induction v as [v Hv | patterns IH] using value_pattern_ind.
  - destruct v; try reflexivity. exfalso. apply (Hv l). reflexivity.
  - cbn [drop_annotations pattern_strings].
    induction IH as [|x patterns Hx _ IHp]; [reflexivity|].
    cbn [map flat_map]. rewrite IHp. f_equal.
    destruct x as [| | |s|l|d]; try reflexivity.
    cbn [drop_annotations_mapping mapping_strings].
    induction Hx as [|[k v] d Hkv _ IHd]; [reflexivity|].
    cbn [flat_map]. rewrite flat_map_app, IHd. f_equal.
    unfold drop_annotations_item, item_strings. cbn [fst snd].
    destruct (startswith k "__") eqn:Ek; [reflexivity|].
    cbn [flat_map fst snd]. rewrite Ek.
    destruct v as [| | |s|l|d']; try reflexivity.
    cbn [snd] in Hkv. cbn [drop_annotations]. cbn [drop_annotations] in Hkv.
    rewrite Hkv. rewrite List.app_nil_r. reflexivity.
Qed.

(** X9: the keys that start with two underscores are annotations: a pattern
    list and the same list without them, at any depth, parse to trees with
    the same operators, nesting and identifiers and the same pattern texts
    on their leaves, or both fail. *)
Theorem X9_annotations_are_skipped (v : value) (parent parent' : dict) (n : nat)
    (pre : string) :
  outline_list (Rule._parse_boolean_expression v parent n pre)
  = outline_list (Rule._parse_boolean_expression (drop_annotations v) parent' n pre) /\
  forall l l',
    Rule._parse_boolean_expression v parent n pre = Ok l ->
    Rule._parse_boolean_expression (drop_annotations v) parent' n pre = Ok l' ->
    texts l' = texts l.
Proof.
  split; [apply parse_annotations|].
  intros l l' H H'.
  rewrite (parse_leaves _ _ _ _ _ H), (parse_leaves _ _ _ _ _ H').
  rewrite pattern_strings_annotations. reflexivity.
Qed.

(** ** The keys the dispatch reads *)

Lemma dict_mem_without (keys : list string) (d : dict) (k : string) :
  existsb (String.eqb k) keys = false ->
  dict_mem (without keys d) k = dict_mem d k.
Proof. intros H. unfold dict_mem. rewrite (dict_get_without _ _ _ H). reflexivity. Qed.

Lemma build_boolean_expression_frame (keys : list string) (d : dict) :
  forallb (fun k => negb (existsb (String.eqb k) keys))
          ["pattern"; "pattern-regex"; "patterns"; "pattern-either"] = true ->
  existsb (String.eqb "id") keys = false \/
  (truthy (py_get d "pattern" VNone) = false /\
   truthy (py_get d "pattern-regex" VNone) = false) ->
  (forall tree,
      Rule._build_boolean_expression d = Ok tree ->
      Rule._build_boolean_expression (without keys d)
      = Ok (with_span tree (Span_from_dict (without keys d) None))) /\
  succeeds (Rule._build_boolean_expression (without keys d))
  = succeeds (Rule._build_boolean_expression d).
Proof.
  intros Hkeys Hid. cbn [forallb] in Hkeys.
  repeat (apply andb_prop in Hkeys; destruct Hkeys as [? Hkeys]).
  repeat match goal with
         | H : negb _ = true |- _ => apply negb_true_iff in H
         end.
  split.
  - unfold Rule._build_boolean_expression. simpl.
    rewrite !(py_get_without keys d _ VNone) by assumption.
    rewrite !(py_getitem_without keys d "pattern") by assumption.
    rewrite !(py_getitem_without keys d "pattern-regex") by assumption.
    destruct (truthy (py_get d "pattern" VNone)) eqn:E1.
    { destruct Hid as [Hid | [Hid _]]; [|discriminate].
      rewrite (py_getitem_without keys d "id") by assumption.
      intros tree Hb. bind_inv Hb. bind_inv Hk. inversion Hk0; subst.
      rewrite Ha, Ha0. reflexivity. }
    destruct (truthy (py_get d "pattern-regex" VNone)) eqn:E2.
    { destruct Hid as [Hid | [_ Hid]]; [|discriminate].
      rewrite (py_getitem_without keys d "id") by assumption.
      intros tree Hb. bind_inv Hb. bind_inv Hk. inversion Hk0; subst.
      rewrite Ha, Ha0. reflexivity. }
    destruct (truthy (py_get d "patterns" VNone)).
    { intros tree Hb. bind_inv Hb. inversion Hk; subst.
      rewrite (parse_parent _ _ (without keys d) _ _ _ Ha). reflexivity. }
    destruct (truthy (py_get d "pattern-either" VNone)).
    { intros tree Hb. bind_inv Hb. inversion Hk; subst.
      rewrite (parse_parent _ _ (without keys d) _ _ _ Ha). reflexivity. }
    discriminate.
  - rewrite !build_succeeds. unfold expression_ok.
    rewrite !(py_get_without keys d _ VNone) by assumption.
    destruct (truthy (py_get d "pattern" VNone)) eqn:E1.
    { destruct Hid as [Hid | [Hid _]]; [|discriminate].
      apply dict_mem_without. exact Hid. }
    destruct (truthy (py_get d "pattern-regex" VNone)) eqn:E2.
    { destruct Hid as [Hid | [_ Hid]]; [|discriminate].
      apply dict_mem_without. exact Hid. }
    reflexivity.
Qed.

(** X10: a rule whose [pattern] or [pattern-regex] is truthy and which has
    no [id] is not constructed: the construction raises the [KeyError] of
    the lookup of [id], not a schema error, and leaves the heap alone. *)
Theorem X10_single_pattern_needs_id (raw : Rule.ref) (h : Rule.heap) :
  dict_get (h raw) "id" = None ->
  truthy (py_get (h raw) "pattern" VNone)
  || truthy (py_get (h raw) "pattern-regex" VNone) = true ->
  Rule.__init__ raw h = (Raise (KeyError "id"), h).
Proof.
  intros Hid Ht. rewrite init_run. f_equal.
  unfold Rule._build_boolean_expression. simpl.
  unfold py_getitem at 1 3. rewrite Hid.
  destruct (truthy (py_get (h raw) "pattern" VNone)); [reflexivity|].
  simpl in Ht. rewrite Ht. reflexivity.
Qed.

Lemma X10_single_pattern_needs_id_witness :
  Rule.__init__ 0 (heap_of [("pattern-regex", VStr "a+b"); ("message", VStr "m")])
  = (Raise (KeyError "id"), heap_of [("pattern-regex", VStr "a+b"); ("message", VStr "m")]).
Proof.
  apply (X10_single_pattern_needs_id 0
           (heap_of [("pattern-regex", VStr "a+b"); ("message", VStr "m")]));
    reflexivity.
Defined.

(** X11: the tree depends on the document through five keys only: [id],
    [pattern], [pattern-regex], [patterns] and [pattern-either].  Deleting
    any other keys leaves the tree as it is, the source span of its root
    apart, and does not change whether the dispatch fails. *)
Theorem X11_tree_reads_five_keys (keys : list string) (d : dict) :
  forallb (fun k => negb (existsb (String.eqb k) keys)) expression_keys = true ->
  (forall tree,
      Rule._build_boolean_expression d = Ok tree ->
      Rule._build_boolean_expression (without keys d)
      = Ok (with_span tree (Span_from_dict (without keys d) None))) /\
  succeeds (Rule._build_boolean_expression (without keys d))
  = succeeds (Rule._build_boolean_expression d).
Proof.
  intros H. unfold expression_keys in H. cbn [forallb] in H.
  apply andb_prop in H. destruct H as [Hid H].
  apply build_boolean_expression_frame; [exact H|].
  left. apply negb_true_iff. exact Hid.
Qed.

Lemma X11_tree_reads_five_keys_witness :
  Rule._build_boolean_expression (without ["metadata"; "fix"; "paths"] doc_sarif)
  = Ok (with_span
          (mkExpression AND_ALL None
             (Some [ mkExpression AND (Some (VStr ".0")) None (Some (VStr "a"))
                       (Span_from_dict [("pattern", VStr "a")] None);
                     mkExpression AND_NOT (Some (VStr ".1")) None (Some (VStr "b"))
                       (Span_from_dict [("pattern-not", VStr "b")] None) ])
             None (Span_from_dict doc_sarif None))
          (Span_from_dict (without ["metadata"; "fix"; "paths"] doc_sarif) None)).
Proof.
  apply (proj1 (X11_tree_reads_five_keys ["metadata"; "fix"; "paths"] doc_sarif eq_refl)).
  reflexivity.
Defined.

(** X12: a composite rule does not need an [id]: when neither [pattern]
    nor [pattern-regex] is truthy, the document without its [id] compiles
    to the same tree, the source span of its root apart, and fails when the
    document fails. *)
Theorem X12_composite_rule_ignores_id (d : dict) :
  truthy (py_get d "pattern" VNone) = false ->
  truthy (py_get d "pattern-regex" VNone) = false ->
  (forall tree,
      Rule._build_boolean_expression d = Ok tree ->
      Rule._build_boolean_expression (without ["id"] d)
      = Ok (with_span tree (Span_from_dict (without ["id"] d) None))) /\
  succeeds (Rule._build_boolean_expression (without ["id"] d))
  = succeeds (Rule._build_boolean_expression d).
Proof.
  intros H1 H2. apply build_boolean_expression_frame; [reflexivity|].
  right. split; assumption.
Qed.

Lemma X12_composite_rule_ignores_id_witness :
  succeeds (Rule._build_boolean_expression (without ["id"] doc_two_either)) = true.
Proof.
  rewrite (proj2 (X12_composite_rule_ignores_id doc_two_either eq_refl eq_refl)).
  reflexivity.
Defined.

(** ** The glob sets are sets of what is listed *)

Lemma py_eq_scalar_sym (v w : value) : py_eq_scalar v w = py_eq_scalar w v.
Proof.
  destruct v, w; simpl; try reflexivity.
  - destruct b, b0; reflexivity.
  - apply Z.eqb_sym.
  - apply String.eqb_sym.
Qed.

Lemma py_eq_scalar_str (x : string) (w : value) :
  py_eq_scalar (VStr x) w = true -> w = VStr x.
Proof.
  destruct w; simpl; try discriminate.
  intros H. apply String.eqb_eq in H. subst. reflexivity.
Qed.

Lemma distinct_snoc (s : pyset) (v : value) :
  distinct s -> existsb (py_eq_scalar v) s = false -> distinct (s ++ [v])%list.
Proof.
  unfold distinct. intros Hs Hv.
  induction Hs as [|a s Ha Hs IH]; simpl.
  - constructor; constructor.
  - simpl in Hv. apply orb_false_elim in Hv. destruct Hv as [Hva Hvs].
    constructor; [|apply IH; exact Hvs].
    apply Forall_app. split; [exact Ha|].
    constructor; [|constructor].
    rewrite py_eq_scalar_sym. exact Hva.
Qed.

Lemma set_add_proper (s s' : pyset) (v : value) :
  proper_set s -> set_add s v = Ok s' -> proper_set s'.
Proof.
  unfold set_add. intros [Hd Hh] H.
  destruct (hashable v) eqn:Ev; [|discriminate].
  destruct (existsb (py_eq_scalar v) s) eqn:Es; inversion H; subst.
  - split; assumption.
  - split; [apply distinct_snoc; assumption|].
    apply Forall_app. split; [exact Hh|]. constructor; [exact Ev|constructor].
Qed.

Lemma add_values_proper (values : list value) :
  forall s s', proper_set s -> Rule.add_values s values = Ok s' -> proper_set s'.
Proof.
  induction values as [|v values IH]; intros s s' Hs H; simpl in H.
  - inversion H; subst. exact Hs.
  - bind_inv H. eapply IH; [|exact Hk]. eapply set_add_proper; eauto.
Qed.

Lemma globs_loop_proper (items : dict) :
  forall globs globs',
    proper_set (include globs) -> proper_set (exclude globs) ->
    Rule.globs_loop items globs = Ok globs' ->
    proper_set (include globs') /\ proper_set (exclude globs').
Proof.
  induction items as [|[k rule] items IH]; intros globs globs' Hi He H.
  - simpl in H. inversion H; subst. split; assumption.
  - cbn [Rule.globs_loop] in H.
    destruct (startswith k "__"); [eapply IH; eauto|].
    destruct (negb (existsb (String.eqb k) ALLOWED_GLOB_TYPES)); [discriminate|].
    bind_inv H. destruct (String.eqb k "exclude"); bind_inv Hk.
    + eapply IH; [| |exact Hk0]; simpl;
        [exact Hi | exact (add_values_proper _ _ _ He Ha0)].
    + eapply IH; [| |exact Hk0]; simpl;
        [exact (add_values_proper _ _ _ Hi Ha0) | exact He].
Qed.

(** X13: the two glob sets of a document are proper sets: no two elements
    of a set are equal, however often a value is listed, and every element
    can be hashed. *)
Theorem X13_glob_sets_have_no_duplicates (rule_raw : dict) (globs : RuleGlobs) :
  Rule._build_globs rule_raw = Ok globs ->
  distinct (include globs) /\
  distinct (exclude globs) /\
  Forall (fun v => hashable v = true) (include globs ++ exclude globs)%list.
Proof.
  unfold Rule._build_globs. intros H.
  destruct (py_get rule_raw "paths" (VDict [])); try discriminate.
  assert (Hempty : proper_set []) by (split; constructor).
  destruct (globs_loop_proper d {| include := []; exclude := [] |} globs Hempty Hempty H)
    as [[Hi Hi'] [He He']].
  split; [exact Hi|]. split; [exact He|].
  apply Forall_app. split; assumption.
Qed.

Lemma X13_glob_sets_have_no_duplicates_witness :
  exists globs,
    Rule._build_globs
      [("paths", VDict [ ("include", VList [VStr "src"; VStr "src"]);
                         ("include", VStr "src") ])]
    = Ok globs /\
    include globs = [VStr "src"] /\
    distinct (include globs).
Proof.
  eexists. split; [reflexivity|]. split; [reflexivity|].
  exact (proj1 (X13_glob_sets_have_no_duplicates
                  [("paths", VDict [ ("include", VList [VStr "src"; VStr "src"]);
                                     ("include", VStr "src") ])]
                  _ eq_refl)).
Defined.

Lemma set_add_mem (s s' : pyset) (v : value) (x : string) :
  set_add s v = Ok s' ->
  (In (VStr x) s' <-> In (VStr x) s \/ v = VStr x).
Proof.
  unfold set_add. intros H.
  destruct (hashable v); [|discriminate].
  destruct (existsb (py_eq_scalar v) s) eqn:Es; inversion H; subst.
  - split; [auto|]. intros [Hin | ->]; [exact Hin|].
    apply existsb_exists in Es. destruct Es as (w & Hw & Heq).
    apply py_eq_scalar_str in Heq. subst w. exact Hw.
  - rewrite in_app_iff. simpl. intuition.
Qed.

Lemma add_values_mem (values : list value) (x : string) :
  forall s s',
    Rule.add_values s values = Ok s' ->
    (In (VStr x) s' <-> In (VStr x) s \/ In (VStr x) values).
Proof.
  induction values as [|v values IH]; intros s s' H; simpl in H.
  - inversion H; subst. simpl. intuition.
  - bind_inv H. rewrite (IH _ _ Hk), (set_add_mem _ _ _ x Ha). simpl. intuition.
Qed.

Lemma py_iter_rule_values (rule : value) (values : list value) :
  py_iter match rule with VStr _ => VList [rule] | _ => rule end = Ok values ->
  values = rule_values rule.
Proof. destruct rule; simpl; intros H; inversion H; reflexivity. Qed.

Lemma listed_cons (k : string) (rule : value) (items : dict) (rule_type x : string) :
  listed ((k, rule) :: items) rule_type x <->
  (k = rule_type /\ In (VStr x) (rule_values rule)) \/ listed items rule_type x.
Proof.
  unfold listed. split.
  - intros (r & [E | Hin] & Hx).
    + inversion E; subst. left. auto.
    + right. exists r. auto.
  - intros [[-> Hx] | (r & Hin & Hx)].
    + exists rule. split; [left; reflexivity | exact Hx].
    + exists r. split; [right; exact Hin | exact Hx].
Qed.

Lemma globs_loop_mem (items : dict) (x : string) :
  forall globs globs',
    Rule.globs_loop items globs = Ok globs' ->
    (In (VStr x) (include globs') <->
     In (VStr x) (include globs) \/ listed items "include" x) /\
    (In (VStr x) (exclude globs') <->
     In (VStr x) (exclude globs) \/ listed items "exclude" x).
Proof.
  induction items as [|[k rule] items IH]; intros globs globs' H.
  - simpl in H. inversion H; subst. unfold listed. simpl.
    split; split; auto; intros [Hin | (r & [] & _)]; exact Hin.
  - cbn [Rule.globs_loop] in H. rewrite !listed_cons.
    destruct (startswith k "__") eqn:Ek.
    { destruct (IH _ _ H) as [Hi He].
      assert (k <> "include") by (intros ->; discriminate Ek).
      assert (k <> "exclude") by (intros ->; discriminate Ek).
      rewrite Hi, He. intuition. }
    destruct (existsb (String.eqb k) ALLOWED_GLOB_TYPES) eqn:Ea; [|discriminate].
    cbn [negb] in H. bind_inv H. apply py_iter_rule_values in Ha. subst a.
    destruct (String.eqb_spec k "exclude") as [-> | Hne]; bind_inv Hk.
    + destruct (IH _ _ Hk0) as [Hi He]. cbn [include exclude] in Hi, He.
      rewrite Hi, He, (add_values_mem _ x _ _ Ha).
      assert ("exclude" <> "include") by discriminate. intuition.
    + assert (k = "include").
      { cbn [existsb ALLOWED_GLOB_TYPES] in Ea.
        destruct (String.eqb_spec k "include"); [assumption|].
        destruct (String.eqb_spec k "exclude"); [contradiction|discriminate]. }
      subst k.
      destruct (IH _ _ Hk0) as [Hi He]. cbn [include exclude] in Hi, He.
      rewrite Hi, He, (add_values_mem _ x _ _ Ha).
      assert ("include" <> "exclude") by discriminate. intuition.
Qed.

(** X14: the glob sets hold what is listed, as it is written: when the
    glob builder returns, a string is in the include set exactly when it is
    written under an [include] key of [paths] (as the string, as an element
    of a list or as a key of a mapping), and in the exclude set exactly
    when it is written under an [exclude] key. *)
Theorem X14_glob_sets_hold_what_is_listed (rule_raw : dict) (items : dict)
    (globs : RuleGlobs) (x : string) :
  py_get rule_raw "paths" (VDict []) = VDict items ->
  Rule._build_globs rule_raw = Ok globs ->
  (In (VStr x) (include globs) <-> listed items "include" x) /\
  (In (VStr x) (exclude globs) <-> listed items "exclude" x).
Proof.
  unfold Rule._build_globs. intros Hp H. rewrite Hp in H.
  destruct (globs_loop_mem items x _ _ H) as [Hi He]. simpl in Hi, He.
  rewrite Hi, He. intuition.
Qed.

Lemma X14_glob_sets_hold_what_is_listed_witness :
  exists globs,
    Rule._build_globs doc_globs = Ok globs /\
    (In (VStr "tests") (include globs) <->
     listed [ ("include", VList [VStr "tests"; VStr "*.js"]);
              ("exclude", VStr "build/output") ] "include" "tests").
Proof.
  eexists. split; [reflexivity|].
  exact (proj1 (X14_glob_sets_hold_what_is_listed doc_globs
                  [ ("include", VList [VStr "tests"; VStr "*.js"]);
                    ("exclude", VStr "build/output") ]
                  _ "tests" eq_refl eq_refl)).
Defined.

(** ** When the SARIF projection exists *)

Lemma level_known (key : string) :
  succeeds (py_getitem [("INFO", VStr "note"); ("ERROR", VStr "error");
                        ("WARNING", VStr "warning")] key)
  = existsb (fun entry => String.eqb key (fst entry)) spec_levels.
Proof.
  unfold py_getitem. cbn [dict_get existsb spec_levels fst].
  rewrite (String.eqb_sym key "INFO"), (String.eqb_sym key "WARNING"),
    (String.eqb_sym key "ERROR").
  destruct (String.eqb "INFO" key), (String.eqb "ERROR" key),
    (String.eqb "WARNING" key); reflexivity.
Qed.

Lemma sarif_severity_succeeds (self : Rule.t) (h : Rule.heap) :
  succeeds (Rule.sarif_severity self h)
  = match dict_get (h (Rule.raw self)) "severity" with
    | Some v => existsb (fun entry => String.eqb (py_str v) (fst entry)) spec_levels
    | None => false
    end.
Proof.
  unfold Rule.sarif_severity, Rule.severity, Rule.raw.
  destruct (dict_get (h (Rule._raw self)) "severity") as [v|] eqn:E.
  - rewrite (py_getitem_present _ _ _ E). cbn [bind].
    rewrite succeeds_bind, <- level_known.
    destruct (py_getitem _ (py_str v)); reflexivity.
  - unfold py_getitem at 1. rewrite E. reflexivity.
Qed.

Lemma sarif_tags_succeeds (self : Rule.t) (h : Rule.heap) :
  succeeds (Rule.sarif_tags self h)
  = match Rule.metadata self h with
    | VDict _ | VList _ | VStr _ => true
    | _ => false
    end.
Proof.
  unfold Rule.sarif_tags. destruct (Rule.metadata self h); reflexivity.
Qed.

(** X15: the SARIF projection of a rule exists exactly when its document
    has an [id] and a [message], its severity reads as INFO, WARNING or
    ERROR, and its metadata is a mapping, a list or a string (or is absent);
    otherwise [to_sarif] raises. *)
Theorem X15_to_sarif_succeeds_iff (self : Rule.t) (h : Rule.heap) :
  succeeds (Rule.to_sarif self h) = sarif_ok (h (Rule.raw self)).
Proof.
  unfold Rule.to_sarif, sarif_ok.
  rewrite <- sarif_severity_succeeds.
  change (py_get (h (Rule.raw self)) "metadata" (VDict [])) with (Rule.metadata self h).
  rewrite <- sarif_tags_succeeds.
  unfold Rule.id, Rule.message, Rule.raw, dict_mem, py_getitem.
  destruct (dict_get (h (Rule._raw self)) "id"); [|reflexivity]. cbn [bind].
  destruct (dict_get (h (Rule._raw self)) "message"); [|reflexivity]. cbn [bind andb].
  destruct (Rule.sarif_severity self h); [|reflexivity]. cbn [bind succeeds andb].
  destruct (Rule.sarif_tags self h); reflexivity.
Qed.

(** X16: [to_sarif] reads [id], then [message], then the severity, then the
    metadata, and raises at the first that is missing: a [KeyError] for
    [id], [message] and [severity] in this order, and a [TypeError] when all
    three are fine and the metadata is [None], a boolean or a number, as
    for a [metadata:] key left empty. *)
Theorem X16_to_sarif_raises_in_order (self : Rule.t) (h : Rule.heap) :
  (dict_get (h (Rule.raw self)) "id" = None ->
   Rule.to_sarif self h = Raise (KeyError "id")) /\
  (dict_mem (h (Rule.raw self)) "id" = true ->
   dict_get (h (Rule.raw self)) "message" = None ->
   Rule.to_sarif self h = Raise (KeyError "message")) /\
  (dict_mem (h (Rule.raw self)) "id" = true ->
   dict_mem (h (Rule.raw self)) "message" = true ->
   dict_get (h (Rule.raw self)) "severity" = None ->
   Rule.to_sarif self h = Raise (KeyError "severity")) /\
  (forall v,
     dict_mem (h (Rule.raw self)) "id" = true ->
     dict_mem (h (Rule.raw self)) "message" = true ->
     succeeds (Rule.sarif_severity self h) = true ->
     dict_get (h (Rule.raw self)) "metadata" = Some v ->
     match v with VNone | VBool _ | VInt _ => True | _ => False end ->
     Rule.to_sarif self h
     = Raise (TypeError ("argument of type '" ++ type_name v ++ "' is not iterable"))).
Proof.
  unfold Rule.to_sarif, Rule.id, Rule.message, Rule.raw, dict_mem, py_getitem.
  repeat split.
  - intros ->. reflexivity.
  - destruct (dict_get (h (Rule._raw self)) "id"); [|discriminate].
    intros _ ->. reflexivity.
  - destruct (dict_get (h (Rule._raw self)) "id"); [|discriminate].
    destruct (dict_get (h (Rule._raw self)) "message"); [|discriminate].
    intros _ _ Hs. cbn [bind]. unfold Rule.sarif_severity, Rule.severity, py_getitem.
    rewrite Hs. reflexivity.
  - intros v.
    destruct (dict_get (h (Rule._raw self)) "id"); [|discriminate].
    destruct (dict_get (h (Rule._raw self)) "message"); [|discriminate].
    intros _ _ Hs Hm Hv. cbn [bind].
    destruct (Rule.sarif_severity self h); [|discriminate]. cbn [bind].
    unfold Rule.sarif_tags, Rule.metadata.
    rewrite (py_get_present _ _ _ (VDict []) Hm).
    destruct v; try contradiction; reflexivity.
Qed.

Lemma X16_to_sarif_raises_in_order_witness :
  Rule.to_sarif (Rule.mkRule 0 (mkExpression AND None None None DUMMY_SPAN)
                   {| include := []; exclude := [] |})
    (heap_of [ ("id", VStr "r"); ("message", VStr "m"); ("severity", VStr "INFO");
               ("metadata", VNone); ("pattern", VStr "a") ])
  = Raise (TypeError "argument of type 'NoneType' is not iterable").
Proof.
  apply (proj2 (proj2 (proj2
           (X16_to_sarif_raises_in_order
              (Rule.mkRule 0 (mkExpression AND None None None DUMMY_SPAN)
                 {| include := []; exclude := [] |})
              (heap_of [ ("id", VStr "r"); ("message", VStr "m");
                         ("severity", VStr "INFO");
                         ("metadata", VNone); ("pattern", VStr "a") ]))))
         VNone); first [reflexivity | exact I].
Defined.

(** ** Equivalence declarations *)

Lemma equivalences_loop_spec (self : Rule.t) (h : Rule.heap) (eqs : list value) :
  forall i l,
    Rule.equivalences_loop self h i eqs = Ok l ->
    map (fun e => Ok (equivalence_pattern e)) l
    = map (fun eq => py_subscript eq "equivalence") eqs /\
    Forall (fun e => Rule.languages self h = Ok (equivalence_languages e)) l /\
    forall rule_id,
      Rule.id self h = Ok rule_id ->
      map equivalence_id l = map (equivalence_name rule_id) (seq i (List.length eqs)).
Proof.
  induction eqs as [|eq eqs IH]; intros i l H.
  - simpl in H. inversion H. repeat split. constructor.
  - cbn [Rule.equivalences_loop] in H.
    bind_inv H. bind_inv Hk. bind_inv Hk0. bind_inv Hk. inversion Hk0; subst.
    destruct (IH _ _ Ha2) as (Ht & Hl & Hi).
    split; [|split].
    + simpl. rewrite Ha0, Ht. reflexivity.
    + constructor; [exact Ha1 | exact Hl].
    + intros rule_id Hid. rewrite Ha in Hid. inversion Hid; subst.
      simpl. rewrite (Hi rule_id Ha). reflexivity.
Qed.

Lemma equivalence_name_NoDup (rule_id : string) (i count : nat) :
  NoDup (map (equivalence_name rule_id) (seq i count)).
Proof.
  apply Finite.Injective_map_NoDup; [|apply seq_NoDup].
  intros a b H. unfold equivalence_name in H.
  apply append_inj in H. inversion H as [E].
  apply str_of_nat_inj. exact E.
Qed.

(** X17: when [equivalences] returns, it has one declaration per entry of
    the equivalences list, in order; the declaration of entry [i] is named
    by the rule's [id], a dash and [i], so that no two of them share a
    name; it carries the [equivalence] text of its entry and the rule's
    own language list. *)
Theorem X17_equivalences_are_numbered (self : Rule.t) (h : Rule.heap)
    (eqs : list value) (l : list Equivalence) :
  py_iter (py_get (h (Rule.raw self)) EQUIVALENCES (VList [])) = Ok eqs ->
  Rule.equivalences self h = Ok l ->
  map (fun e => Ok (equivalence_pattern e)) l
  = map (fun eq => py_subscript eq "equivalence") eqs /\
  Forall (fun e => Rule.languages self h = Ok (equivalence_languages e)) l /\
  (forall rule_id,
     Rule.id self h = Ok rule_id ->
     map equivalence_id l
     = map (fun i => rule_id ++ "-" ++ str_of_nat i) (seq 0 (List.length eqs))) /\
  NoDup (map equivalence_id l).
Proof.
  unfold Rule.equivalences, Rule.raw. intros Heqs H. rewrite Heqs in H. cbn [bind] in H.
  destruct (equivalences_loop_spec self h eqs 0 l H) as (Ht & Hl & Hi).
  split; [exact Ht|]. split; [exact Hl|]. split; [exact Hi|].
  destruct eqs as [|eq eqs].
  - simpl in H. inversion H. constructor.
  - assert (Hid : exists rule_id, Rule.id self h = Ok rule_id).
    { cbn [Rule.equivalences_loop] in H. bind_inv H. eauto. }
    destruct Hid as [rule_id Hid]. rewrite (Hi rule_id Hid).
    apply equivalence_name_NoDup.
Qed.

Lemma X17_equivalences_are_numbered_witness :
  exists l,
    Rule.equivalences
      (Rule.mkRule 0 (mkExpression AND None None None DUMMY_SPAN)
         {| include := []; exclude := [] |})
      (heap_of [ ("id", VStr "r"); ("languages", VList [VStr "python"]);
                 ("equivalences", VList [ VDict [("equivalence", VStr "a <==> b")];
                                          VDict [("equivalence", VStr "c <==> d")] ]) ])
    = Ok l /\
    map equivalence_id l = ["r-0"; "r-1"].
Proof.
  eexists. split; [reflexivity|].
  refine (proj1 (proj2 (proj2
            (X17_equivalences_are_numbered
               (Rule.mkRule 0 (mkExpression AND None None None DUMMY_SPAN)
                  {| include := []; exclude := [] |})
               (heap_of [ ("id", VStr "r"); ("languages", VList [VStr "python"]);
                          ("equivalences",
                           VList [ VDict [("equivalence", VStr "a <==> b")];
                                   VDict [("equivalence", VStr "c <==> d")] ]) ])
               _ _ eq_refl eq_refl))) "r" eq_refl).
Defined.

(** ** Leaves carry the pattern strings *)

(** X18: the leaves of a composite rule carry the pattern strings of its
    pattern list, one leaf per string, in document order: nothing is
    dropped, repeated or reordered. *)
Theorem X18_leaves_carry_pattern_strings (rule_raw : dict) (tree : BooleanRuleExpression) :
  truthy (py_get rule_raw "pattern" VNone) = false ->
  truthy (py_get rule_raw "pattern-regex" VNone) = false ->
  Rule._build_boolean_expression rule_raw = Ok tree ->
  exists key,
    In key ["patterns"; "pattern-either"] /\
    truthy (py_get rule_raw key VNone) = true /\
    map operand (leaves tree) = as_texts (pattern_strings (py_get rule_raw key VNone)) /\
    List.length (leaves tree) = List.length (pattern_strings (py_get rule_raw key VNone)).
Proof. exact (composite_rule_leaf_count rule_raw tree). Qed.

Lemma X18_leaves_carry_pattern_strings_witness :
  exists tree,
    Rule._build_boolean_expression doc_two_either = Ok tree /\
    exists key,
      map operand (leaves tree)
      = as_texts (pattern_strings (py_get doc_two_either key VNone)).
Proof.
  eexists. split; [reflexivity|].
  destruct (X18_leaves_carry_pattern_strings doc_two_either _ eq_refl eq_refl eq_refl)
    as (key & _ & _ & H & _).
  exists key. exact H.
Defined.

(** ** The prefix of a nested list *)

Lemma nested_under_app (P : nat -> list BooleanRuleExpression -> Prop) (n : nat)
    (a b : list BooleanRuleExpression) :
  nested_under P n a ->
  nested_under P (n + List.length (filter is_leaf a)) b ->
  nested_under P n (a ++ b).
Proof.
  revert n. induction a as [|e a IH]; intros n Ha Hb.
  - simpl in Hb. rewrite Nat.add_0_r in Hb. exact Hb.
  - simpl in Ha |- *. unfold is_leaf, children_present in Hb. simpl in Hb.
    destruct (children e) as [c|].
    + destruct Ha as [Hc Ha]. split; [exact Hc|]. apply IH; assumption.
    + apply IH; [exact Ha|]. simpl in Hb.
      replace (S n + List.length (filter is_leaf a))
        with (n + S (List.length (filter is_leaf a))) by lia.
      exact Hb.
Qed.

Section parse_nested.
Variable recurse : value -> dict -> nat -> string -> result (list BooleanRuleExpression).
Variable prefix : string.

Let from_recursion (k : nat) (c : list BooleanRuleExpression) : Prop :=
  exists v parent, recurse v parent 0 (prefix ++ "." ++ str_of_nat k) = Ok c.

Lemma parse_items_nested (pattern : dict) (items : dict) :
  forall pid yielded n,
    Rule.parse_items recurse prefix pattern items pid = Ok (yielded, n) ->
    nested_under from_recursion pid yielded.
Proof.
  induction items as [|[k v] items IH]; intros pid yielded n H.
  - simpl in H. inversion H. exact I.
  - simpl in H. destruct (startswith k "__"); [eapply IH; eauto|].
    bind_inv H. destruct v; try discriminate.
    + bind_inv Hk. destruct a0 as [later m]. inversion Hk0; subst.
      simpl. eapply IH; eauto.
    + bind_inv Hk. bind_inv Hk0. destruct a1 as [later m]. inversion Hk; subst.
      simpl. split; [|eapply IH; eauto].
      exists (VList l), pattern. exact Ha0.
Qed.

Lemma parse_patterns_nested (patterns : list value) :
  forall pid l,
    Rule.parse_patterns recurse prefix patterns pid = Ok l ->
    nested_under from_recursion pid l.
Proof.
  induction patterns as [|v patterns IH]; intros pid l H.
  - simpl in H. inversion H. exact I.
  - simpl in H. destruct v; try discriminate.
    bind_inv H. destruct a as [yielded m]. bind_inv Hk. inversion Hk0; subst.
    apply nested_under_app.
    + eapply parse_items_nested; eauto.
    + destruct (parse_items_numbered _ _ _ _ _ _ _ Ha) as (Hm & _).
      rewrite <- Hm. eapply IH; eauto.
Qed.
End parse_nested.

Lemma nested_under_impl (P Q : nat -> list BooleanRuleExpression -> Prop)
    (nodes : list BooleanRuleExpression) :
  (forall k c, P k c -> Q k c) ->
  forall n, nested_under P n nodes -> nested_under Q n nodes.
Proof.
  intros HPQ. induction nodes as [|e nodes IH]; intros n H; [exact I|].
  simpl in H |- *. destruct (children e).
  - destruct H as [Hc H]. split; [apply HPQ; exact Hc | apply IH; exact H].
  - apply IH; exact H.
Qed.

(** X19: the children of a node of a parsed pattern list were numbered
    from zero under the prefix of the parent list, a dot and the counter of
    the parent list at that node, which is the start counter plus the
    number of leaves before the node: the leaves among them carry
    [prefix.k.0], [prefix.k.1], ... and every leaf below them an identifier
    that extends [prefix.k].  Two nested lists with no leaf between them
    are numbered under the same prefix. *)
Theorem X19_nested_list_prefix (patterns : list value) (parent : dict) (n : nat)
    (pre : string) (nodes : list BooleanRuleExpression) :
  Rule._parse_boolean_expression (VList patterns) parent n pre = Ok nodes ->
  nested_under
    (fun k c =>
       map pattern_id (filter is_leaf c)
       = sibling_ids (pre ++ "." ++ str_of_nat k) 0 (List.length (filter is_leaf c)) /\
       Forall (fun i => exists rest,
                   i = Some (VStr ((pre ++ "." ++ str_of_nat k) ++ "." ++ rest)))
              (flat_map leaf_ids c))
    n nodes.
Proof.
  intros H. simpl in H.
  pose proof (parse_patterns_nested Rule._parse_boolean_expression pre patterns n nodes H)
    as Hn.
  revert Hn. apply nested_under_impl.
  intros k c (v & parent' & Hc). split.
  - destruct v; try discriminate.
    exact (proj1 (parse_numbered _ _ _ _ _ Hc)).
  - exact (parse_below _ _ _ _ _ Hc).
Qed.

Lemma X19_nested_list_prefix_witness :
  exists nodes,
    Rule._parse_boolean_expression (py_get doc_two_either "patterns" VNone) [] 0 "" = Ok nodes /\
    nested_under
      (fun k c =>
         map pattern_id (filter is_leaf c)
         = sibling_ids ("" ++ "." ++ str_of_nat k) 0 (List.length (filter is_leaf c)) /\
         Forall (fun i => exists rest,
                     i = Some (VStr (("" ++ "." ++ str_of_nat k) ++ "." ++ rest)))
                (flat_map leaf_ids c))
      0 nodes.
Proof.
  eexists. split; [reflexivity|].
  apply (X19_nested_list_prefix
           [ VDict [("pattern-either", VList [VDict [("pattern", VStr "a")]])];
             VDict [("pattern-either", VList [VDict [("pattern", VStr "b")]])] ]
           [] 0 "").
  reflexivity.
Defined.

(** ** The two kinds of node, with children *)

Section parse_populated.
Variable recurse : value -> dict -> nat -> string -> result (list BooleanRuleExpression).
Variable inner : value -> bool.
Variable prefix : string.

Let full (v : value) : Prop :=
  forall parent n pre l,
    recurse v parent n pre = Ok l ->
    inner v = true ->
    l <> [] /\ Forall (fun e => Forall composite_xor_leaf (nodes e)) l.

Lemma parse_items_populated (items : dict) :
  Forall (fun kv => full (snd kv)) items ->
  forallb (item_populated inner) items = true ->
  forall pattern pid yielded n,
    Rule.parse_items recurse prefix pattern items pid = Ok (yielded, n) ->
    Forall (fun e => Forall composite_xor_leaf (nodes e)) yielded.
Proof.
  induction 1 as [|[k v] items Hv _ IH]; intros Hp pattern pid yielded n H.
  - simpl in H. inversion H. constructor.
  - cbn [forallb] in Hp. apply andb_prop in Hp. destruct Hp as [Hkv Hp].
    unfold item_populated in Hkv. cbn [fst snd] in Hkv.
    simpl in H. destruct (startswith k "__"); [eapply IH; eauto|].
    cbn [orb] in Hkv.
    bind_inv H. destruct v; try discriminate.
    + bind_inv Hk. destruct a0 as [later m]. inversion Hk0; subst.
      constructor; [|eapply IH; eauto].
      repeat constructor.
    + bind_inv Hk. bind_inv Hk0. destruct a1 as [later m]. inversion Hk; subst.
      constructor; [|eapply IH; eauto].
      cbn [snd] in Hv. destruct (Hv _ _ _ _ Ha0 Hkv) as [Hne Hall].
      rewrite nodes_composite. constructor.
      * unfold composite_xor_leaf, has_children, has_text. simpl.
        destruct a0; [contradiction Hne; reflexivity | reflexivity].
      * apply Forall_flat_map. exact Hall.
Qed.

Lemma parse_patterns_populated (patterns : list value) :
  inside_mappings full patterns ->
  forallb (mapping_populated inner) patterns = true ->
  forall pid l,
    Rule.parse_patterns recurse prefix patterns pid = Ok l ->
    Forall (fun e => Forall composite_xor_leaf (nodes e)) l.
Proof.
  induction 1 as [|v patterns Hv _ IH]; intros Hp pid l H.
  - simpl in H. inversion H. constructor.
  - cbn [forallb] in Hp. apply andb_prop in Hp. destruct Hp as [Hm Hp].
    simpl in H. destruct v; try discriminate.
    bind_inv H. destruct a as [yielded m]. bind_inv Hk. inversion Hk0; subst.
    apply Forall_app. split.
    + eapply parse_items_populated; eauto.
    + eapply IH; eauto.
Qed.
End parse_populated.

(** A populated pattern list parses to a list that is not empty and whose
    nodes all have children or a pattern text. *)
Lemma parse_populated (v : value) :
  forall parent n pre l,
    Rule._parse_boolean_expression v parent n pre = Ok l ->
    populated v = true ->
    l <> [] /\ Forall (fun e => Forall composite_xor_leaf (nodes e)) l.
Proof.
  induction v as [v Hv | patterns IH] using value_pattern_ind;
    intros parent n pre l H Hp.
  - rewrite (parse_not_a_list _ _ _ _ Hv) in H. discriminate.
  - cbn [populated] in Hp. apply andb_prop in Hp. destruct Hp as [He Hp].
    split.
    + destruct (parse_entries _ _ _ _ _ H) as (_ & Ho & _).
      intros ->. destruct (entries patterns); discriminate.
    + simpl in H. eapply parse_patterns_populated; eauto.
Qed.

(** C3 (amended): when every pattern list of the rule, at every depth, has
    an entry that is not an annotation, every node of the compiled tree has
    children, present and not empty, or a pattern text, and never both;
    without that condition a node still has exactly one of the two fields,
    with a [children] field that may be empty. *)
Theorem C3_node_is_composite_or_leaf (rule_raw : dict) (tree : BooleanRuleExpression) :
  Rule._build_boolean_expression rule_raw = Ok tree ->
  (populated_rule rule_raw = true -> Forall composite_xor_leaf (nodes tree)) /\
  Forall composite_or_leaf (nodes tree).
Proof.
  intros H. split.
  - unfold populated_rule. revert H.
    unfold Rule._build_boolean_expression. simpl.
    destruct (truthy (py_get rule_raw "pattern" VNone)).
    { intros H _. bind_inv H. bind_inv Hk. inversion Hk0. repeat constructor. }
    destruct (truthy (py_get rule_raw "pattern-regex" VNone)).
    { intros H _. bind_inv H. bind_inv Hk. inversion Hk0. repeat constructor. }
    assert (Hc : forall family v,
               (parsed <- Rule._parse_boolean_expression v rule_raw 0 "" ;;
                Ok (mkExpression family None (Some parsed) None
                      (Span_from_dict rule_raw None))) = Ok tree ->
               populated v = true ->
               Forall composite_xor_leaf (nodes tree)).
    { intros family v H Hp. bind_inv H. inversion Hk; subst.
      destruct (parse_populated _ _ _ _ _ Ha Hp) as [Hne Hall].
      rewrite nodes_composite. constructor.
      - unfold composite_xor_leaf, has_children, has_text. simpl.
        destruct a; [contradiction Hne; reflexivity | reflexivity].
      - apply Forall_flat_map. exact Hall. }
    destruct (truthy (py_get rule_raw "patterns" VNone)); [apply Hc|].
    destruct (truthy (py_get rule_raw "pattern-either" VNone)); [apply Hc|].
    discriminate.
  - destruct (build_boolean_expression_Ok _ _ H)
      as [(family & rule_id & text & ->) | (family & key & parsed & _ & _ & _ & _ & Hp & ->)].
    + repeat constructor.
    + rewrite nodes_composite. constructor; [reflexivity|].
      apply Forall_flat_map.
      eapply (parse_nodes composite_or_leaf); eauto; intros; reflexivity.
Qed.

Lemma C3_node_is_composite_or_leaf_witness :
  exists tree,
    Rule._build_boolean_expression doc_two_either = Ok tree /\
    populated_rule doc_two_either = true /\
    Forall composite_xor_leaf (nodes tree).
Proof.
  eexists. split; [reflexivity|]. split; [reflexivity|].
  apply (proj1 (C3_node_is_composite_or_leaf doc_two_either _ eq_refl)).
  reflexivity.
Defined.
